(** * TLS-SSL-Proxy: the TLS reader and writer of [src/tls/io/tls-io.c]

    A shallow embedding of the functions of [tls-io.c] and the
    properties of the message buffer, of the two retry counters and of
    the end-of-connection flag.

    Conventions of the embedding.
    - A C [int] is a [Z]; the result of an [int] operation is folded
      back into 32 bits by [int_wrap] (the two's complement result the
      usual targets give; C itself leaves a signed overflow undefined).
    - A pointer to a heap block is the block itself: [option block],
      [None] for [NULL].  A block is the list of its cells; a cell that
      was never written holds [None].
    - The channel handle [SSL *] is the list of the results the channel
      will give to the next calls of its primitive, oldest first.
    - Out-parameters ([int *], [bool *], [char **]) are passed in and
      handed back next to the return value.
    - What the functions do to the process (allocation requests, sleeps,
      lines printed) is kept in a [world].
    - A store outside a block or an array and an access through [NULL]
      leave the defined behaviour of C: the run ends in a [Fault]. *)

From Stdlib Require Import ZArith Lia Bool String.
From Stdlib Require Import Init.Byte.
From stdpp Require Import base list.

Local Open Scope Z_scope.

(** ** Machine integers *)

Definition INT_MIN : Z := - 2 ^ 31.
Definition INT_MAX : Z := 2 ^ 31 - 1.

(** The 32-bit two's complement value of [z]. *)
Definition int_wrap (z : Z) : Z := (z + 2 ^ 31) mod 2 ^ 32 - 2 ^ 31.

Definition in_int (z : Z) : Prop := INT_MIN <= z <= INT_MAX.

(** ** Constants *)

Definition FULL_BUFFER_SIZE : Z := 1024.
Definition READER_BUFFER_SIZE : Z := 160.
Definition SLEEP_TIME : Z := 10.
Definition MAX_RETRIES_TO_START_READING : Z := 10.
Definition MAX_RETRIES_TO_STOP_READING : Z := 3.

(** The error codes of [SSL_get_error], with the values of OpenSSL's
    [ssl.h]. *)
Definition SSL_ERROR_NONE : Z := 0.
Definition SSL_ERROR_SSL : Z := 1.
Definition SSL_ERROR_WANT_READ : Z := 2.
Definition SSL_ERROR_WANT_WRITE : Z := 3.
Definition SSL_ERROR_SYSCALL : Z := 5.
Definition SSL_ERROR_ZERO_RETURN : Z := 6.

(** ** The process: allocator, clock and standard output *)

Record world := World {
  alloc_ok : nat -> bool;      (* does the i-th allocation request succeed *)
  alloc_calls : nat;           (* allocation requests made so far *)
  slept : list (Z * Z);        (* (tv_sec, tv_nsec) of each sleep, latest first *)
  stdout : list string         (* lines printed, latest first *)
}.

Definition printf (line : string) (w : world) : world :=
  World (alloc_ok w) (alloc_calls w) (slept w) (line :: stdout w).

(** ** Heap blocks *)

Abbreviation cell := (option byte).
Abbreviation block := (list (option byte)).

(** [size_t] of an [int]: the conversion of a negative value wraps. *)
Definition size_t (n : Z) : Z := n mod 2 ^ 64.

(** The process after one more allocation request. *)
Definition requested (w : world) : world :=
  World (alloc_ok w) (S (alloc_calls w)) (slept w) (stdout w).

(** [malloc(n)]: a fresh block of [n] unwritten cells, or [NULL]. *)
Definition malloc (n : Z) (w : world) : option block * world :=
  let w' := requested w in
  if alloc_ok w (alloc_calls w)
  then (Some (replicate (Z.to_nat (size_t n)) None), w')
  else (None, w').

(** [realloc(p, n)]: on success a block of [n] cells that starts with the
    cells of [p] (as many as fit); on failure [NULL], and [p] stays as it
    is.  [realloc(NULL, n)] is [malloc(n)]. *)
Definition realloc (p : option block) (n : Z) (w : world)
  : option block * world :=
  match p with
  | None => malloc n w
  | Some b =>
      let w' := requested w in
      let len := Z.to_nat (size_t n) in
      if alloc_ok w (alloc_calls w)
      then (Some (take len b ++ replicate (len - length b)%nat None), w')
      else (None, w')
  end.

(** What went wrong when a run leaves the defined behaviour of C. *)
Inductive fault : Type :=
| NullPointer          (* access through NULL *)
| OutOfBounds.         (* access outside the block or the source array *)

(** [memcpy(dst + off, src, n)]: [n] bytes of [src] stored from cell
    [off] of [dst] on. *)
Definition memcpy (dst : option block) (off : Z) (src : block) (n : Z)
  : fault + block :=
  match dst with
  | None => inl NullPointer
  | Some b =>
      let len := size_t n in
      if (0 <=? off) && (off + len <=? Z.of_nat (length b))
         && (len <=? Z.of_nat (length src))
      then
        let o := Z.to_nat off in
        let k := Z.to_nat len in
        inr (take o b ++ take k src ++ drop (o + k) b)
      else inl OutOfBounds
  end.

(** [p[i] = c]. *)
Definition store (p : option block) (i : Z) (c : byte) : fault + block :=
  match p with
  | None => inl NullPointer
  | Some b =>
      if (0 <=? i) && (i <? Z.of_nat (length b))
      then inr (<[Z.to_nat i := Some c]> b)
      else inl OutOfBounds
  end.

(** ** Outcomes *)

Inductive outcome (A : Type) : Type :=
| Done (a : A) (w : world)     (* the call returns [a] *)
| Fault (f : fault)            (* undefined behaviour *)
| Starved.                     (* the channel was asked for more results
                                  than it was given: the call is still
                                  running *)
Arguments Done {A} a w.
Arguments Fault {A} f.
Arguments Starved {A}.

(** ** [milliseconds_sleep] *)

(** The fields of the [timespec] handed to [nanosleep] are logged; the
    loop restarts an interrupted [nanosleep] with the time that remains,
    so one call is one full suspension. *)
Definition milliseconds_sleep (milliseconds : Z) (w : world) : world :=
  let tv_sec := Z.quot milliseconds 1000 in
  let tv_nsec := Z.rem milliseconds 1000 * 1000000 in
  World (alloc_ok w) (alloc_calls w) ((tv_sec, tv_nsec) :: slept w) (stdout w).

(** ** [treat_SSL_read_error] *)

Record treated := Treated {
  tr_ret : Z;                        (* -1 if read must end, 0 otherwise *)
  tr_attempts_after_end_message : Z; (* *attempts_after_end_message *)
  tr_end_connection : bool           (* *end_connection *)
}.

Definition treat_SSL_read_error (err : Z) (attempts_after_end_message : Z)
    (total_bytes read_bytes : Z) (end_connection : bool) (w : world)
  : treated * world :=
  if read_bytes =? 0 then
    (Treated (-1) attempts_after_end_message
       (if total_bytes =? 0 then true else end_connection), w)
  else if err =? SSL_ERROR_WANT_READ then
    let attempts' := int_wrap (attempts_after_end_message + 1) in
    let w' := milliseconds_sleep SLEEP_TIME w in
    if attempts' =? MAX_RETRIES_TO_STOP_READING
    then (Treated (-1) attempts' end_connection, w')
    else (Treated 0 attempts' end_connection, w')
  else if (err =? SSL_ERROR_WANT_WRITE) || (err =? SSL_ERROR_SYSCALL)
          || (err =? SSL_ERROR_SSL) then
    (Treated (-1) attempts_after_end_message end_connection,
     printf "(error) Error in read function!" w)
  else
    (Treated 0 attempts_after_end_message end_connection, w).

(** ** [wait_for_first_message] *)

(** Returns the return value and [*attempts_to_get_first_message]. *)
Definition wait_for_first_message (attempts_to_get_first_message : Z)
    (w : world) : Z * Z * world :=
  let attempts' := int_wrap (attempts_to_get_first_message + 1) in
  let w' := milliseconds_sleep SLEEP_TIME w in
  if attempts' =? MAX_RETRIES_TO_START_READING
  then (-1, attempts', w')
  else (0, attempts', w').

(** ** [save_read_data] *)

(** Returns [*body] and [*allocated_space]. *)
Definition save_read_data (body : option block) (read_buffer : block)
    (allocated_space total_bytes read_bytes : Z) (w : world)
  : outcome (option block * Z) :=
  if int_wrap (allocated_space - READER_BUFFER_SIZE) >=? total_bytes then
    match memcpy body total_bytes read_buffer read_bytes with
    | inl f => Fault f
    | inr b => Done (Some b, allocated_space) w
    end
  else
    let allocated_space' := int_wrap (allocated_space * 2) in
    let '(reallocated_body, w') :=
      realloc body (int_wrap (allocated_space' + 1)) w in
    let body' :=
      match reallocated_body with
      | Some b => Some b
      | None => body
      end in
    match memcpy body' total_bytes read_buffer read_bytes with
    | inl f => Fault f
    | inr b => Done (Some b, allocated_space') w'
    end.

(** ** The channel seen from [read_data_from_ssl] *)

(** One call of [SSL_read] followed by [SSL_get_error]: the value
    returned, the bytes put in the caller's buffer, and the error code
    [SSL_get_error] gives for that call. *)
Record ssl_read_result := ReadResult {
  rr_ret : Z;
  rr_data : list byte;
  rr_err : Z
}.

(** [SSL_read] puts at most [num] bytes at the start of [buf]. *)
Definition SSL_read_fill (buf : block) (num : Z) (r : ssl_read_result)
  : block :=
  let d := take (Z.to_nat num) (rr_data r) in
  take (length buf) ((Some <$> d) ++ drop (length d) buf).

(** ** [read_data_from_ssl] *)

(** The locals of [read_data_from_ssl] and its two out-parameters. *)
Record reading := Reading {
  rd_body : option block;
  rd_allocated_space : Z;
  rd_total_bytes : Z;                       (* *total_bytes *)
  rd_first_reading_done : bool;
  rd_attempts_after_end_message : Z;
  rd_attempts_to_get_first_message : Z;
  rd_end_connection : bool;                 (* *end_connection *)
  rd_read_buffer : block
}.

(** The [do ... while (1)] loop; every turn takes one result from the
    channel.  [read_buffer[read_bytes] = 0] (line 146) runs on every
    turn, before the sign of [read_bytes] is looked at: after a read
    that returned a negative value it is a store outside the array.  A
    [break] is [Done], with the locals and what is left of the
    channel. *)
Fixpoint read_loop (ssl : list ssl_read_result) (s : reading) (w : world)
  : outcome (reading * list ssl_read_result) :=
  match ssl with
  | [] => Starved
  | r :: ssl' =>
      let read_bytes := rr_ret r in
      match store (Some (SSL_read_fill (rd_read_buffer s)
                           READER_BUFFER_SIZE r)) read_bytes x00 with
      | inl f => Fault f
      | inr read_buffer =>
          if read_bytes >? 0 then
            match save_read_data (rd_body s) read_buffer (rd_allocated_space s)
                    (rd_total_bytes s) read_bytes w with
            | Done (body', allocated_space') w' =>
                read_loop ssl'
                  (Reading body' allocated_space'
                     (int_wrap (rd_total_bytes s + read_bytes))
                     true 0 (rd_attempts_to_get_first_message s)
                     (rd_end_connection s) read_buffer) w'
            | Fault f => Fault f
            | Starved => Starved
            end
          else
            let err := rr_err r in
            (* !first_reading_done && wait_for_first_message(...) != -1 *)
            let '(leave, attempts_first, w1) :=
              if negb (rd_first_reading_done s) then
                let '(ret, a, w') :=
                  wait_for_first_message (rd_attempts_to_get_first_message s) w in
                (negb (ret =? -1), a, w')
              else (false, rd_attempts_to_get_first_message s, w) in
            if leave then
              Done (Reading (rd_body s) (rd_allocated_space s) (rd_total_bytes s)
                      (rd_first_reading_done s) (rd_attempts_after_end_message s)
                      attempts_first (rd_end_connection s) read_buffer, ssl') w1
            else
              let '(t, w2) :=
                treat_SSL_read_error err (rd_attempts_after_end_message s)
                  (rd_total_bytes s) read_bytes (rd_end_connection s) w1 in
              let s' :=
                Reading (rd_body s) (rd_allocated_space s) (rd_total_bytes s)
                  (rd_first_reading_done s) (tr_attempts_after_end_message t)
                  attempts_first (tr_end_connection t) read_buffer in
              if tr_ret t =? -1 then Done (s', ssl') w2
              else read_loop ssl' s' w2
      end
  end.

(** What a turn of the loop leaves in [read_buffer] when the store of
    line 146 is inside the array. *)
Definition buffer_after (s : reading) (r : ssl_read_result) : block :=
  <[Z.to_nat (rr_ret r) := Some x00]>
    (SSL_read_fill (rd_read_buffer s) READER_BUFFER_SIZE r).

(** The end of [read_data_from_ssl]: the body is reallocated to
    [total_bytes + 1] bytes, kept as it is when that fails, and closed
    with a zero byte at [total_bytes]. *)
Definition shrink_and_terminate (body : option block) (total_bytes : Z)
    (w : world) : outcome block :=
  let '(reallocated_body, w') := realloc body (int_wrap (total_bytes + 1)) w in
  let body' :=
    match reallocated_body with
    | Some b => Some b
    | None => body
    end in
  match store body' total_bytes x00 with
  | inl f => Fault f
  | inr b => Done b w'
  end.

(** What the caller gets: the returned pointer and the two
    out-parameters. *)
Record message := Message {
  msg_body : block;
  msg_total_bytes : Z;
  msg_end_connection : bool
}.

(** [end_connection] is the value the caller put in [*end_connection]
    before the call. *)
Definition read_data_from_ssl (ssl : list ssl_read_result)
    (end_connection : bool) (w : world)
  : outcome (message * list ssl_read_result) :=
  let allocated_space := FULL_BUFFER_SIZE in
  let '(body, w0) := malloc allocated_space w in
  let read_buffer := replicate (Z.to_nat (READER_BUFFER_SIZE + 1)) None in
  match read_loop ssl
          (Reading body allocated_space 0 false 0 0 end_connection read_buffer)
          w0 with
  | Done (s, ssl') w1 =>
      match shrink_and_terminate (rd_body s) (rd_total_bytes s) w1 with
      | Done b w2 =>
          Done (Message b (rd_total_bytes s) (rd_end_connection s), ssl') w2
      | Fault f => Fault f
      | Starved => Starved
      end
  | Fault f => Fault f
  | Starved => Starved
  end.

(** ** The channel seen from [write_data_in_ssl] *)

(** One call of [SSL_write_ex] followed by [SSL_get_error]: the value
    returned, the count stored in [written], and the error code. *)
Record ssl_write_result := WriteResult {
  wr_ret : Z;
  wr_written : Z;
  wr_err : Z
}.

(** ** [write_data_in_ssl] *)

Definition write_data_in_ssl (ssl : list ssl_write_result)
    (message : list byte) (total_bytes : Z) (w : world)
  : outcome (Z * list ssl_write_result) :=
  match ssl with
  | [] => Starved
  | r :: ssl' =>
      if wr_ret r =? 0 then
        let w1 := printf "(error) Failed to write HTTP request." w in
        let status := wr_err r in
        if (status =? SSL_ERROR_WANT_WRITE) || (status =? SSL_ERROR_WANT_READ)
        then Done (-1, ssl') (printf "(error) Write/read error." w1)
        else Done (-1, ssl') (printf "(error) Error within the SSL connection." w1)
      else Done (int_wrap (wr_written r), ssl') w
  end.

(** ** What the properties speak of *)

(** A body of [allocated_space] bytes or more whose first [total_bytes]
    cells hold [data]. *)
Definition holds (blk : block) (allocated_space total_bytes : Z)
    (data : list byte) : Prop :=
  total_bytes = Z.of_nat (length data)
  /\ take (length data) blk = Some <$> data
  /\ FULL_BUFFER_SIZE <= allocated_space <= INT_MAX
  /\ total_bytes <= allocated_space <= Z.of_nat (length blk).

(** A read that delivers between 1 and [READER_BUFFER_SIZE] bytes. *)
Definition delivers (r : ssl_read_result) : Prop :=
  0 < rr_ret r <= READER_BUFFER_SIZE
  /\ Z.of_nat (length (rr_data r)) = rr_ret r.

(** A failed read that asks to read again later. *)
Definition would_block (r : ssl_read_result) : Prop :=
  rr_ret r < 0 /\ rr_err r = SSL_ERROR_WANT_READ.

(** What [SSL_read] may answer when asked for [READER_BUFFER_SIZE]
    bytes: a failure, or between 1 and [READER_BUFFER_SIZE] bytes. *)
Definition well_formed (r : ssl_read_result) : Prop :=
  rr_ret r <= 0 \/ delivers r.

(** The bytes a list of reads delivers, in order; a failed read
    delivers none. *)
Definition delivered (ssl : list ssl_read_result) : list byte :=
  concat ((fun r => if 0 <? rr_ret r then rr_data r else []) <$> ssl).

(** The body, [NULL] or not, holds [data] in its first [total_bytes]
    cells. *)
Definition gathered (body : option block) (total_bytes : Z)
    (data : list byte) : Prop :=
  total_bytes = Z.of_nat (length data)
  /\ match body with
     | Some blk => take (length data) blk = Some <$> data
     | None => data = []
     end.

(** A failed read with one of the three errors that
    [treat_SSL_read_error] does not retry. *)
Definition abnormal (r : ssl_read_result) : Prop :=
  rr_ret r < 0
  /\ (rr_err r = SSL_ERROR_WANT_WRITE \/ rr_err r = SSL_ERROR_SYSCALL
      \/ rr_err r = SSL_ERROR_SSL).

(** * Properties *)

(** ** Machine integers *)

Lemma int_wrap_id (z : Z) : in_int z -> int_wrap z = z.
Proof.
  unfold in_int, INT_MIN, INT_MAX, int_wrap. intros H.
  rewrite Z.mod_small; lia.
Qed.

Lemma size_t_id (z : Z) : 0 <= z <= INT_MAX -> size_t z = z.
Proof.
  unfold size_t, INT_MAX. intros H. apply Z.mod_small. lia.
Qed.

(** Case analysis on the comparisons a definition branches on. *)
Ltac branch :=
  repeat match goal with
    | |- context [?a =? ?b] => destruct (Z.eqb_spec a b)
    | |- context [?a >? ?b] => destruct (Z.gtb_spec a b)
    | |- context [?a >=? ?b] => rewrite (Z.geb_leb a b)
    | |- context [?a <=? ?b] => destruct (Z.leb_spec a b)
    | |- context [?a <? ?b] => destruct (Z.ltb_spec a b)
    end.

(** ** The read error classifier *)

(** C4. [treat_SSL_read_error] follows the decision table: a read of 0
    bytes stops (-1) and sets the end-of-connection flag exactly when
    [total_bytes] is 0; otherwise would-block-on-read adds one to the
    counter, sleeps once (10 ms) and stops exactly when the counter
    reaches 3; would-block-on-write, a syscall error and a protocol error
    stop at once; any other error code continues (0). *)
Theorem treat_SSL_read_error_table
    (err attempts total_bytes read_bytes : Z) (ec : bool) (w : world) :
  INT_MIN <= attempts < INT_MAX ->
  let t := fst (treat_SSL_read_error err attempts total_bytes read_bytes ec w) in
  let w' := snd (treat_SSL_read_error err attempts total_bytes read_bytes ec w) in
  (read_bytes = 0 ->
     tr_ret t = -1
     /\ tr_end_connection t = (if total_bytes =? 0 then true else ec)
     /\ tr_attempts_after_end_message t = attempts /\ w' = w)
  /\ (read_bytes <> 0 -> err = SSL_ERROR_WANT_READ ->
     tr_attempts_after_end_message t = attempts + 1
     /\ slept w' = (0, 10000000) :: slept w
     /\ tr_ret t = (if attempts + 1 =? MAX_RETRIES_TO_STOP_READING
                    then -1 else 0)
     /\ tr_end_connection t = ec)
  /\ (read_bytes <> 0 ->
      err = SSL_ERROR_WANT_WRITE \/ err = SSL_ERROR_SYSCALL
      \/ err = SSL_ERROR_SSL ->
     tr_ret t = -1
     /\ tr_attempts_after_end_message t = attempts
     /\ tr_end_connection t = ec /\ slept w' = slept w)
  /\ (read_bytes <> 0 -> err <> SSL_ERROR_WANT_READ ->
      err <> SSL_ERROR_WANT_WRITE -> err <> SSL_ERROR_SYSCALL ->
      err <> SSL_ERROR_SSL ->
     tr_ret t = 0
     /\ tr_attempts_after_end_message t = attempts
     /\ tr_end_connection t = ec /\ w' = w).
Proof.
  intros Hrange t w'. subst t w'.
  assert (Hw : int_wrap (attempts + 1) = attempts + 1).
  { apply int_wrap_id. unfold in_int. lia. }
  unfold treat_SSL_read_error.
  rewrite Hw.
  unfold SSL_ERROR_WANT_READ, SSL_ERROR_WANT_WRITE, SSL_ERROR_SYSCALL,
    SSL_ERROR_SSL, MAX_RETRIES_TO_STOP_READING.
  repeat split; intros; branch; simpl; try reflexivity; try lia.
Qed.

(** The table at work: the third would-block in a row stops the read. *)
Lemma treat_SSL_read_error_table_witness :
  tr_ret (fst (treat_SSL_read_error SSL_ERROR_WANT_READ 2 160 (-1) false
                 (World (fun _ => true) 0 [] []))) = -1.
Proof.
  pose proof (treat_SSL_read_error_table SSL_ERROR_WANT_READ 2 160 (-1) false
                (World (fun _ => true) 0 [] [])) as H.
  destruct H as (_ & H & _).
  - unfold INT_MIN, INT_MAX. lia.
  - destruct H as (_ & _ & H & _); [lia | reflexivity | exact H].
Defined.

(** ** The writer *)

(** C9. [write_data_in_ssl] makes one call of the write primitive.  When
    the primitive succeeds it returns the count the primitive stored (500
    for a 500-byte payload fully written); when the primitive fails it
    returns -1 whatever the error code is, and does not call again. *)
Theorem write_data_in_ssl_returns
    (r : ssl_write_result) (ssl : list ssl_write_result)
    (message : list byte) (total_bytes : Z) (w : world) :
  (wr_ret r <> 0 -> 0 <= wr_written r <= INT_MAX ->
     write_data_in_ssl (r :: ssl) message total_bytes w
     = Done (wr_written r, ssl) w)
  /\ (wr_ret r = 0 ->
      exists w', write_data_in_ssl (r :: ssl) message total_bytes w
                 = Done (-1, ssl) w'
                 /\ slept w' = slept w /\ alloc_calls w' = alloc_calls w)
  /\ write_data_in_ssl (WriteResult 1 500 SSL_ERROR_NONE :: ssl)
       message 500 w = Done (500, ssl) w.
Proof.
  split; [|split].
  - intros Hret Hwr. unfold write_data_in_ssl.
    destruct (Z.eqb_spec (wr_ret r) 0); [contradiction|].
    rewrite int_wrap_id; [reflexivity|].
    unfold in_int, INT_MIN. lia.
  - intros Hret. unfold write_data_in_ssl. rewrite Hret. simpl.
    destruct ((wr_err r =? SSL_ERROR_WANT_WRITE)
              || (wr_err r =? SSL_ERROR_WANT_READ));
      eexists; repeat split; reflexivity.
  - reflexivity.
Qed.

(** A protocol error on the write: -1, and the channel is asked once. *)
Lemma write_data_in_ssl_returns_witness :
  exists w', write_data_in_ssl
               [WriteResult 0 0 SSL_ERROR_SSL; WriteResult 1 3 SSL_ERROR_NONE]
               ["a"; "b"; "c"]%byte 3 (World (fun _ => true) 0 [] [])
             = Done (-1, [WriteResult 1 3 SSL_ERROR_NONE]) w'
             /\ slept w' = [] /\ alloc_calls w' = 0%nat.
Proof.
  destruct (write_data_in_ssl_returns (WriteResult 0 0 SSL_ERROR_SSL)
              [WriteResult 1 3 SSL_ERROR_NONE] ["a"; "b"; "c"]%byte 3
              (World (fun _ => true) 0 [] [])) as (_ & H & _).
  exact (H eq_refl).
Defined.

(** ** The store of line 146 *)

Lemma length_SSL_read_fill (buf : block) (num : Z) (r : ssl_read_result) :
  length (SSL_read_fill buf num r) = length buf.
Proof.
  unfold SSL_read_fill.
  rewrite length_take, length_app, length_fmap, length_drop. lia.
Qed.

Lemma store_read_buffer (s : reading) (r : ssl_read_result) :
  0 <= rr_ret r < Z.of_nat (length (rd_read_buffer s)) ->
  store (Some (SSL_read_fill (rd_read_buffer s) READER_BUFFER_SIZE r))
    (rr_ret r) x00
  = inr (buffer_after s r).
Proof.
  intros Hret. unfold store. rewrite length_SSL_read_fill.
  destruct (Z.leb_spec 0 (rr_ret r)); [|lia].
  destruct (Z.ltb_spec (rr_ret r) (Z.of_nat (length (rd_read_buffer s))));
    [|lia].
  reflexivity.
Qed.

Lemma store_read_buffer_returned
    (s : reading) (r : ssl_read_result) (b : block) :
  store (Some (SSL_read_fill (rd_read_buffer s) READER_BUFFER_SIZE r))
    (rr_ret r) x00
  = inr b ->
  0 <= rr_ret r /\ b = buffer_after s r.
Proof.
  unfold store. intros Hst.
  destruct (Z.leb_spec 0 (rr_ret r)); [|discriminate Hst].
  destruct (_ <? _); [|discriminate Hst].
  injection Hst as <-. split; [assumption|reflexivity].
Qed.

(** After a read that returned a negative value the store is outside
    the array, whatever the error code and the state of the loop. *)
Lemma read_loop_negative
    (r : ssl_read_result) (rest : list ssl_read_result) (s : reading)
    (w : world) :
  rr_ret r < 0 ->
  read_loop (r :: rest) s w = Fault OutOfBounds.
Proof.
  intros Hret. cbn [read_loop]. unfold store.
  destruct (Z.leb_spec 0 (rr_ret r)); [lia|]. reflexivity.
Qed.

(** ** The first failed read *)

(** A read of 0 bytes while nothing has been read: the loop is left as
    soon as [wait_for_first_message] answers 0, which it does for every
    count but the tenth. *)
Lemma read_loop_first_failure
    (r : ssl_read_result) (rest : list ssl_read_result) (s : reading)
    (w : world) :
  rr_ret r = 0 ->
  Z.of_nat (length (rd_read_buffer s)) = READER_BUFFER_SIZE + 1 ->
  rd_first_reading_done s = false ->
  int_wrap (rd_attempts_to_get_first_message s + 1)
    <> MAX_RETRIES_TO_START_READING ->
  read_loop (r :: rest) s w
  = Done (Reading (rd_body s) (rd_allocated_space s) (rd_total_bytes s)
            false (rd_attempts_after_end_message s)
            (int_wrap (rd_attempts_to_get_first_message s + 1))
            (rd_end_connection s) (buffer_after s r), rest)
         (milliseconds_sleep SLEEP_TIME w).
Proof.
  intros Hret Hbuf Hfirst Hcount. cbn [read_loop].
  rewrite store_read_buffer by (unfold READER_BUFFER_SIZE in Hbuf; lia).
  rewrite Hret. change (0 >? 0) with false. cbv iota.
  rewrite Hfirst. cbn [negb]. unfold wait_for_first_message.
  destruct (Z.eqb_spec (int_wrap (rd_attempts_to_get_first_message s + 1))
              MAX_RETRIES_TO_START_READING); [contradiction|].
  reflexivity.
Qed.

(** C1 (the code at the failing input).  When the first read returns 0
    bytes, [read_data_from_ssl] returns an empty payload and
    [*end_connection] still holds what the caller put there: the loop
    is left at [wait_for_first_message], before [treat_SSL_read_error]
    could set the flag. *)
Theorem first_read_zero_flag_not_set
    (data : list byte) (err : Z) (rest : list ssl_read_result) (ec : bool)
    (calls : nat) (sl : list (Z * Z)) (out : list string) :
  read_data_from_ssl (ReadResult 0 data err :: rest) ec
    (World (fun _ => true) calls sl out)
  = Done (Message [Some x00] 0 ec, rest)
      (World (fun _ => true) (S (S calls)) ((0, 10000000) :: sl) out).
Proof.
  unfold read_data_from_ssl, malloc. cbn [alloc_ok alloc_calls slept stdout].
  rewrite read_loop_first_failure
    by (simpl; try reflexivity; try lia; discriminate).
  reflexivity.
Qed.

(** C2 (the code at the failing input).  While nothing has been read, a
    failed read never starts the wait of up to 10 attempts.  After a
    read that returned 0, [wait_for_first_message] is called once (one
    more attempt, one sleep) and the loop is left at once, with the
    counter at [attempts + 1], whenever that is not the ceiling 10: from
    a fresh counter the read ends with the counter at 1, and what the
    channel still holds is never read.  After a read that returned a
    negative value, as a would-block does, the waiter is not even
    reached: the store of line 146 is outside [read_buffer]. *)
Theorem first_would_block_ends_read
    (r : ssl_read_result) (rest : list ssl_read_result) (s : reading)
    (w : world) :
  rr_ret r <= 0 ->
  Z.of_nat (length (rd_read_buffer s)) = READER_BUFFER_SIZE + 1 ->
  rd_first_reading_done s = false ->
  INT_MIN <= rd_attempts_to_get_first_message s < INT_MAX ->
  rd_attempts_to_get_first_message s + 1 <> MAX_RETRIES_TO_START_READING ->
  (rr_ret r = 0 ->
   exists s',
     read_loop (r :: rest) s w
     = Done (s', rest) (milliseconds_sleep SLEEP_TIME w)
     /\ rd_attempts_to_get_first_message s'
        = rd_attempts_to_get_first_message s + 1
     /\ rd_total_bytes s' = rd_total_bytes s
     /\ rd_body s' = rd_body s
     /\ rd_end_connection s' = rd_end_connection s)
  /\ (rr_ret r < 0 -> read_loop (r :: rest) s w = Fault OutOfBounds).
Proof.
  intros Hret Hbuf Hfirst Hrange Hcount.
  assert (Hw : int_wrap (rd_attempts_to_get_first_message s + 1)
               = rd_attempts_to_get_first_message s + 1).
  { apply int_wrap_id. unfold in_int. lia. }
  split; [|apply read_loop_negative].
  intros Hzero. eexists. split.
  - apply read_loop_first_failure; try assumption.
    rewrite Hw. exact Hcount.
  - simpl. rewrite Hw. repeat split; reflexivity.
Qed.

(** A read of 0 bytes with would-block-on-read, then 5 bytes that are
    never read. *)
Lemma first_would_block_ends_read_witness :
  exists s',
    read_loop
      [ReadResult 0 [] SSL_ERROR_WANT_READ;
       ReadResult 5 ["h"; "e"; "l"; "l"; "o"]%byte SSL_ERROR_NONE]
      (Reading (Some (replicate 1024 None)) 1024 0 false 0 0 false
         (replicate 161 None))
      (World (fun _ => true) 1 [] [])
    = Done (s', [ReadResult 5 ["h"; "e"; "l"; "l"; "o"]%byte SSL_ERROR_NONE])
        (World (fun _ => true) 1 [(0, 10000000)] [])
    /\ rd_attempts_to_get_first_message s' = 1
    /\ rd_total_bytes s' = 0.
Proof.
  destruct (first_would_block_ends_read
              (ReadResult 0 [] SSL_ERROR_WANT_READ)
              [ReadResult 5 ["h"; "e"; "l"; "l"; "o"]%byte SSL_ERROR_NONE]
              (Reading (Some (replicate 1024 None)) 1024 0 false 0 0 false
                 (replicate 161 None))
              (World (fun _ => true) 1 [] []))
    as (Hzero & _).
  - simpl. lia.
  - reflexivity.
  - reflexivity.
  - unfold INT_MIN, INT_MAX. simpl. lia.
  - simpl. unfold MAX_RETRIES_TO_START_READING. lia.
  - destruct (Hzero eq_refl) as (s' & Hrun & Hcount & Htotal & _).
    exists s'. split; [exact Hrun | split; [exact Hcount | exact Htotal]].
Defined.

(** ** Blocks *)

Lemma realloc_done (b : block) (n : Z) (w : world) :
  alloc_ok w (alloc_calls w) = true -> 0 <= n <= INT_MAX ->
  realloc (Some b) n w
  = (Some (take (Z.to_nat n) b ++ replicate (Z.to_nat n - length b)%nat None),
     requested w).
Proof.
  intros Hok Hn. unfold realloc. rewrite Hok, size_t_id by exact Hn.
  reflexivity.
Qed.

Lemma realloc_failed (b : block) (n : Z) (w : world) :
  alloc_ok w (alloc_calls w) = false ->
  realloc (Some b) n w = (None, requested w).
Proof. intros Hok. unfold realloc. rewrite Hok. reflexivity. Qed.

Lemma memcpy_done (b src : block) (off n : Z) :
  0 <= off -> 0 <= n <= INT_MAX ->
  off + n <= Z.of_nat (length b) -> n <= Z.of_nat (length src) ->
  memcpy (Some b) off src n
  = inr (take (Z.to_nat off) b ++ take (Z.to_nat n) src
         ++ drop (Z.to_nat off + Z.to_nat n) b).
Proof.
  intros Hoff Hn Hfit Hsrc. unfold memcpy. rewrite size_t_id by exact Hn.
  destruct (Z.leb_spec 0 off); [|lia].
  destruct (Z.leb_spec (off + n) (Z.of_nat (length b))); [|lia].
  destruct (Z.leb_spec n (Z.of_nat (length src))); [|lia].
  reflexivity.
Qed.

(** ** Finalisation *)

(** C8. The end of [read_data_from_ssl] never truncates: for a body that
    holds the [total_bytes] bytes read, the returned block starts with
    these same [total_bytes] cells and has the zero byte at index
    [total_bytes].  When the reallocation succeeds the block is exactly
    [total_bytes + 1] long; when it fails the original block, longer
    than [total_bytes], is the one returned, at its old length. *)
Theorem shrink_and_terminate_keeps_data
    (blk : block) (total_bytes : Z) (w : world) :
  0 <= total_bytes < INT_MAX ->
  total_bytes <= Z.of_nat (length blk) ->
  (alloc_ok w (alloc_calls w) = false ->
   total_bytes < Z.of_nat (length blk)) ->
  exists b',
    shrink_and_terminate (Some blk) total_bytes w = Done b' (requested w)
    /\ take (Z.to_nat total_bytes) b' = take (Z.to_nat total_bytes) blk
    /\ b' !! Z.to_nat total_bytes = Some (Some x00)
    /\ (if alloc_ok w (alloc_calls w)
        then Z.of_nat (length b') = total_bytes + 1
        else length b' = length blk).
Proof.
  intros Htotal Hdata Hover. unfold shrink_and_terminate.
  rewrite int_wrap_id by (unfold in_int, INT_MIN, INT_MAX in *; lia).
  destruct (alloc_ok w (alloc_calls w)) eqn:Hok.
  - rewrite realloc_done by (try exact Hok; lia).
    set (b1 := take _ blk ++ replicate _ None).
    assert (Hlen : length b1 = S (Z.to_nat total_bytes)).
    { unfold b1. rewrite length_app, length_take, length_replicate. lia. }
    unfold store.
    destruct (Z.leb_spec 0 total_bytes); [|lia].
    destruct (Z.ltb_spec total_bytes (Z.of_nat (length b1))); [|lia]. simpl.
    eexists. split; [reflexivity|]. split; [|split].
    + rewrite take_insert_ge by lia. unfold b1.
      rewrite take_app_le by (rewrite length_take; lia).
      rewrite take_take. f_equal. lia.
    + apply list_lookup_insert_eq. lia.
    + rewrite length_insert. lia.
  - rewrite realloc_failed by exact Hok. specialize (Hover eq_refl).
    unfold store.
    destruct (Z.leb_spec 0 total_bytes); [|lia].
    destruct (Z.ltb_spec total_bytes (Z.of_nat (length blk))); [|lia]. simpl.
    eexists. split; [reflexivity|]. split; [|split].
    + apply take_insert_ge. lia.
    + apply list_lookup_insert_eq. lia.
    + apply length_insert.
Qed.

(** A failed shrink of a 6-cell body that holds 3 bytes. *)
Lemma shrink_and_terminate_keeps_data_witness :
  exists b',
    shrink_and_terminate
      (Some [Some "a"; Some "b"; Some "c"; None; None; None]%byte) 3
      (World (fun _ => false) 4 [] [])
    = Done b' (World (fun _ => false) 5 [] [])
    /\ take 3 b' = [Some "a"; Some "b"; Some "c"]%byte
    /\ b' !! 3%nat = Some (Some x00)
    /\ length b' = 6%nat.
Proof.
  apply (shrink_and_terminate_keeps_data
           [Some "a"; Some "b"; Some "c"; None; None; None]%byte 3
           (World (fun _ => false) 4 [] [])).
  - unfold INT_MAX. lia.
  - simpl. lia.
  - intros _. simpl. lia.
Defined.

(** ** Appending to the body *)

(** The two paths of [save_read_data], with the sizes in range. *)
Lemma save_read_data_in_place
    (blk src : block) (allocated_space total_bytes read_bytes : Z)
    (w : world) :
  in_int (allocated_space - READER_BUFFER_SIZE) ->
  total_bytes <= allocated_space - READER_BUFFER_SIZE ->
  0 <= total_bytes -> 0 <= read_bytes <= INT_MAX ->
  total_bytes + read_bytes <= Z.of_nat (length blk) ->
  read_bytes <= Z.of_nat (length src) ->
  save_read_data (Some blk) src allocated_space total_bytes read_bytes w
  = Done (Some (take (Z.to_nat total_bytes) blk
                ++ take (Z.to_nat read_bytes) src
                ++ drop (Z.to_nat total_bytes + Z.to_nat read_bytes) blk),
          allocated_space) w.
Proof.
  intros Hint Hroom Htotal Hread Hfit Hsrc. unfold save_read_data.
  rewrite int_wrap_id by exact Hint.
  rewrite Z.geb_leb.
  destruct (Z.leb_spec total_bytes (allocated_space - READER_BUFFER_SIZE));
    [|lia].
  rewrite memcpy_done by assumption. reflexivity.
Qed.

Lemma save_read_data_growth
    (blk src : block) (allocated_space total_bytes read_bytes : Z)
    (w : world) :
  in_int (allocated_space - READER_BUFFER_SIZE) ->
  allocated_space - READER_BUFFER_SIZE < total_bytes ->
  save_read_data (Some blk) src allocated_space total_bytes read_bytes w
  = let allocated_space' := int_wrap (allocated_space * 2) in
    let body' :=
      match fst (realloc (Some blk) (int_wrap (allocated_space' + 1)) w) with
      | Some b => Some b
      | None => Some blk
      end in
    match memcpy body' total_bytes src read_bytes with
    | inl f => Fault f
    | inr b => Done (Some b, allocated_space') (requested w)
    end.
Proof.
  intros Hint Hroom. unfold save_read_data.
  rewrite int_wrap_id by exact Hint.
  rewrite Z.geb_leb.
  destruct (Z.leb_spec total_bytes (allocated_space - READER_BUFFER_SIZE));
    [lia|].
  unfold realloc. destruct (alloc_ok w (alloc_calls w)); reflexivity.
Qed.

(** A failed growth whose bytes fit in the old block. *)
Lemma save_read_data_failed_growth_fits
    (blk src : block) (allocated_space total_bytes read_bytes : Z)
    (w : world) :
  in_int (allocated_space - READER_BUFFER_SIZE) ->
  allocated_space - READER_BUFFER_SIZE < total_bytes ->
  alloc_ok w (alloc_calls w) = false ->
  0 <= total_bytes -> 0 <= read_bytes <= INT_MAX ->
  total_bytes + read_bytes <= Z.of_nat (length blk) ->
  read_bytes <= Z.of_nat (length src) ->
  exists blk',
    save_read_data (Some blk) src allocated_space total_bytes read_bytes w
    = Done (Some blk', int_wrap (allocated_space * 2)) (requested w)
    /\ length blk' = length blk
    /\ take (Z.to_nat total_bytes) blk' = take (Z.to_nat total_bytes) blk
    /\ take (Z.to_nat read_bytes) (drop (Z.to_nat total_bytes) blk')
       = take (Z.to_nat read_bytes) src.
Proof.
  intros Hint Hroom Hfail Htotal Hread Hfit Hsrc.
  rewrite save_read_data_growth by assumption. cbv zeta.
  rewrite realloc_failed by exact Hfail. cbn [fst].
  rewrite memcpy_done by assumption.
  eexists. split; [reflexivity|].
  assert (Hl : length (take (Z.to_nat total_bytes) blk)
               = Z.to_nat total_bytes) by (rewrite length_take; lia).
  split; [|split].
  - rewrite !length_app, !length_take, length_drop. lia.
  - rewrite take_app_le by lia. rewrite take_take. f_equal. lia.
  - rewrite drop_app_ge by lia. rewrite Hl, Nat.sub_diag, drop_0.
    rewrite take_app_le by (rewrite length_take; lia).
    rewrite take_take. f_equal. lia.
Qed.

(** C6 (the code on a failed growth).  When growth is needed and the
    reallocation fails, [save_read_data] neither leaves the buffer as it
    was nor tells the caller.  If the new bytes do not fit in the old
    block, the copy runs past its end.  If they fit, they are written,
    [allocated_space] is doubled although the block is the old one, and
    the call returns as a successful growth does. *)
Theorem save_read_data_failed_growth_unsafe
    (blk src : block) (allocated_space total_bytes read_bytes : Z)
    (w : world) :
  in_int (allocated_space - READER_BUFFER_SIZE) ->
  allocated_space - READER_BUFFER_SIZE < total_bytes ->
  alloc_ok w (alloc_calls w) = false ->
  0 <= total_bytes -> 0 <= read_bytes <= INT_MAX ->
  read_bytes <= Z.of_nat (length src) ->
  (Z.of_nat (length blk) < total_bytes + read_bytes ->
   save_read_data (Some blk) src allocated_space total_bytes read_bytes w
   = Fault OutOfBounds)
  /\ (total_bytes + read_bytes <= Z.of_nat (length blk) ->
      exists blk',
        save_read_data (Some blk) src allocated_space total_bytes
          read_bytes w
        = Done (Some blk', int_wrap (allocated_space * 2)) (requested w)
        /\ length blk' = length blk
        /\ take (Z.to_nat total_bytes) blk'
           = take (Z.to_nat total_bytes) blk
        /\ take (Z.to_nat read_bytes) (drop (Z.to_nat total_bytes) blk')
           = take (Z.to_nat read_bytes) src).
Proof.
  intros Hint Hroom Hfail Htotal Hread Hsrc. split.
  - intros Hover.
    rewrite save_read_data_growth by assumption. cbv zeta.
    rewrite realloc_failed by exact Hfail. cbn [fst].
    unfold memcpy. rewrite size_t_id by exact Hread.
    destruct (Z.leb_spec (total_bytes + read_bytes)
                (Z.of_nat (length blk))); [lia|].
    rewrite andb_false_r. reflexivity.
  - intros Hfit. apply save_read_data_failed_growth_fits; assumption.
Qed.

(** Six reads of 160 bytes have filled 960 bytes of the first block of
    1024; 100 more arrive and there is no memory for the growth: 36
    bytes are copied past the end. *)
Lemma save_read_data_failed_growth_unsafe_witness :
  save_read_data
    (Some (replicate 960 (Some "a"%byte) ++ replicate 64 None))
    (replicate 100 (Some "b"%byte) ++ [Some x00]) 1024 960 100
    (World (fun _ => false) 1 [] [])
  = Fault OutOfBounds.
Proof.
  apply (save_read_data_failed_growth_unsafe
           (replicate 960 (Some "a"%byte) ++ replicate 64 None)
           (replicate 100 (Some "b"%byte) ++ [Some x00]) 1024 960 100
           (World (fun _ => false) 1 [] []));
    try reflexivity;
    rewrite ?length_app, ?length_replicate;
    unfold in_int, INT_MIN, INT_MAX, READER_BUFFER_SIZE; lia.
Defined.

(** The growth path when the reallocation succeeds. *)
Lemma save_read_data_growth_done
    (blk src : block) (allocated_space total_bytes read_bytes : Z)
    (w : world) :
  0 <= total_bytes <= allocated_space ->
  allocated_space <= Z.of_nat (length blk) ->
  READER_BUFFER_SIZE <= allocated_space ->
  allocated_space * 2 + 1 <= INT_MAX ->
  0 < read_bytes <= READER_BUFFER_SIZE ->
  read_bytes <= Z.of_nat (length src) ->
  allocated_space - READER_BUFFER_SIZE < total_bytes ->
  alloc_ok w (alloc_calls w) = true ->
  exists blk',
    save_read_data (Some blk) src allocated_space total_bytes read_bytes w
    = Done (Some blk', allocated_space * 2) (requested w)
    /\ total_bytes + read_bytes <= allocated_space * 2
    /\ Z.of_nat (length blk') = allocated_space * 2 + 1
    /\ take (Z.to_nat total_bytes) blk' = take (Z.to_nat total_bytes) blk
    /\ take (Z.to_nat read_bytes) (drop (Z.to_nat total_bytes) blk')
       = take (Z.to_nat read_bytes) src.
Proof.
  intros Htotal Hblk Hmin Hmax Hread Hsrc Hroom Hok.
  unfold READER_BUFFER_SIZE, INT_MAX in *.
  rewrite save_read_data_growth
    by (unfold in_int, INT_MIN, INT_MAX, READER_BUFFER_SIZE; lia).
  cbv zeta.
  rewrite (int_wrap_id (allocated_space * 2))
    by (unfold in_int, INT_MIN, INT_MAX; lia).
  rewrite (int_wrap_id (allocated_space * 2 + 1))
    by (unfold in_int, INT_MIN, INT_MAX; lia).
  rewrite realloc_done by (try exact Hok; unfold INT_MAX; lia). cbn [fst].
  set (blk1 := take _ blk ++ replicate _ None).
  assert (Hlen1 : Z.of_nat (length blk1) = allocated_space * 2 + 1).
  { unfold blk1. rewrite length_app, length_take, length_replicate. lia. }
  assert (Hpre : take (Z.to_nat total_bytes) blk1
                 = take (Z.to_nat total_bytes) blk).
  { unfold blk1. rewrite take_app_le by (rewrite length_take; lia).
    rewrite take_take. f_equal. lia. }
  rewrite memcpy_done by (unfold INT_MAX; lia).
  eexists. split; [reflexivity|].
  assert (Hl : length (take (Z.to_nat total_bytes) blk1)
               = Z.to_nat total_bytes) by (rewrite length_take; lia).
  split; [lia|]. split; [|split].
  - rewrite !length_app, !length_take, length_drop. lia.
  - rewrite take_app_le by lia. rewrite take_take, <- Hpre. f_equal. lia.
  - rewrite drop_app_ge by lia. rewrite Hl, Nat.sub_diag, drop_0.
    rewrite take_app_le by (rewrite length_take; lia).
    rewrite take_take. f_equal. lia.
Qed.

(** C7. An append of [read_bytes] bytes (1 to [READER_BUFFER_SIZE]) that
    finds the headroom too small and whose reallocation succeeds: the
    capacity is doubled and is at least [total_bytes + read_bytes], the
    block is one byte longer than the capacity, the first [total_bytes]
    cells are as before and the next [read_bytes] cells are the bytes
    appended.  The conditions on the sizes hold again after the call, so
    the same is true of every later growth. *)
Theorem save_read_data_grows
    (blk src : block) (allocated_space total_bytes read_bytes : Z)
    (w : world) :
  0 <= total_bytes <= allocated_space ->
  allocated_space <= Z.of_nat (length blk) ->
  READER_BUFFER_SIZE <= allocated_space ->
  allocated_space * 2 + 1 <= INT_MAX ->
  0 < read_bytes <= READER_BUFFER_SIZE ->
  read_bytes <= Z.of_nat (length src) ->
  allocated_space - READER_BUFFER_SIZE < total_bytes ->
  alloc_ok w (alloc_calls w) = true ->
  exists blk',
    save_read_data (Some blk) src allocated_space total_bytes read_bytes w
    = Done (Some blk', allocated_space * 2) (requested w)
    /\ total_bytes + read_bytes <= allocated_space * 2
    /\ Z.of_nat (length blk') = allocated_space * 2 + 1
    /\ take (Z.to_nat total_bytes) blk' = take (Z.to_nat total_bytes) blk
    /\ take (Z.to_nat read_bytes) (drop (Z.to_nat total_bytes) blk')
       = take (Z.to_nat read_bytes) src.
Proof. apply save_read_data_growth_done. Qed.

(** The first growth of a read: 1000 bytes gathered, 100 more. *)
Lemma save_read_data_grows_witness :
  exists blk',
    save_read_data
      (Some (replicate 1000 (Some "a"%byte) ++ replicate 24 None))
      (replicate 100 (Some "b"%byte)) 1024 1000 100
      (World (fun _ => true) 1 [] [])
    = Done (Some blk', 2048) (World (fun _ => true) 2 [] [])
    /\ 1000 + 100 <= 2048
    /\ Z.of_nat (length blk') = 2049
    /\ take 1000 blk' = replicate 1000 (Some "a"%byte)
    /\ take 100 (drop 1000 blk') = replicate 100 (Some "b"%byte).
Proof.
  apply (save_read_data_grows
           (replicate 1000 (Some "a"%byte) ++ replicate 24 None)
           (replicate 100 (Some "b"%byte)) 1024 1000 100
           (World (fun _ => true) 1 [] []));
    try reflexivity;
    rewrite ?length_app, ?length_replicate;
    unfold INT_MAX, READER_BUFFER_SIZE; lia.
Defined.

(** ** The body over a whole read *)

Lemma insert_last {A : Type} (l : list A) (n : nat) (x : A) :
  length l = S n -> <[n:=x]> l = take n l ++ [x].
Proof.
  intros Hlen. rewrite insert_take_drop by lia.
  rewrite drop_ge by lia. reflexivity.
Qed.

(** One append keeps [holds], on either path, as long as the allocator
    serves the growth. *)
Lemma save_read_data_appends
    (blk src : block) (allocated_space total_bytes : Z)
    (data chunk : list byte) (w : world) :
  holds blk allocated_space total_bytes data ->
  0 < Z.of_nat (length chunk) <= READER_BUFFER_SIZE ->
  take (length chunk) src = Some <$> chunk ->
  total_bytes + READER_BUFFER_SIZE <= 2 ^ 30 ->
  alloc_ok w (alloc_calls w) = true ->
  exists blk' allocated_space' w',
    save_read_data (Some blk) src allocated_space total_bytes
      (Z.of_nat (length chunk)) w
    = Done (Some blk', allocated_space') w'
    /\ holds blk' allocated_space'
         (total_bytes + Z.of_nat (length chunk)) (data ++ chunk)
    /\ alloc_ok w' = alloc_ok w
    /\ (alloc_calls w <= alloc_calls w')%nat
    /\ slept w' = slept w.
Proof.
  intros (Htotal & Hdata & Halloc & Hblk) Hchunk Hsrc Hmax Hok.
  unfold FULL_BUFFER_SIZE, READER_BUFFER_SIZE, INT_MAX in *.
  assert (Hsrclen : Z.of_nat (length chunk) <= Z.of_nat (length src)).
  { assert (H : length (take (length chunk) src) = length chunk)
      by (rewrite Hsrc, length_fmap; reflexivity).
    rewrite length_take in H. lia. }
  assert (Hn : Z.to_nat total_bytes = length data) by lia.
  destruct (Z_le_gt_dec total_bytes (allocated_space - 160)) as [Hroom|Hroom].
  - rewrite save_read_data_in_place
      by (unfold in_int, INT_MIN, INT_MAX, READER_BUFFER_SIZE; lia).
    eexists _, _, _. split; [reflexivity|].
    split; [|split; [reflexivity|split; [lia|reflexivity]]].
    unfold holds, FULL_BUFFER_SIZE, INT_MAX.
    rewrite Hn, Nat2Z.id, Hdata, Hsrc.
    rewrite !length_app, !length_fmap, length_drop.
    split; [lia|]. split; [|lia].
    rewrite app_assoc, <- fmap_app.
    rewrite take_app_le by (rewrite length_fmap, length_app; lia).
    rewrite take_ge by (rewrite length_fmap, length_app; lia).
    reflexivity.
  - destruct (save_read_data_growth_done blk src allocated_space total_bytes
                (Z.of_nat (length chunk)) w)
      as (blk' & Hrun & Hcap & Hlen & Hpre & Hnew);
      try (unfold READER_BUFFER_SIZE, INT_MAX; lia); try exact Hok.
    exists blk', (allocated_space * 2), (requested w).
    split; [exact Hrun|].
    split; [|split; [reflexivity|split; [simpl; lia|reflexivity]]].
    unfold holds, FULL_BUFFER_SIZE, INT_MAX.
    rewrite length_app. split; [lia|]. split; [|lia].
    rewrite Hn, Nat2Z.id in *. rewrite Hdata in Hpre. rewrite Hsrc in Hnew.
    rewrite <- (take_drop (length data) blk') at 1.
    rewrite take_app_ge by (rewrite length_take; lia).
    rewrite length_take, Nat.min_l by lia.
    replace (length data + length chunk - length data)%nat
      with (length chunk) by lia.
    rewrite Hpre, Hnew, fmap_app. reflexivity.
Qed.

Lemma length_buffer_after (s : reading) (r : ssl_read_result) :
  length (buffer_after s r) = length (rd_read_buffer s).
Proof.
  unfold buffer_after. rewrite length_insert. apply length_SSL_read_fill.
Qed.

Lemma buffer_after_delivers (s : reading) (r : ssl_read_result) :
  delivers r ->
  Z.of_nat (length (rd_read_buffer s)) = READER_BUFFER_SIZE + 1 ->
  take (length (rr_data r)) (buffer_after s r) = Some <$> rr_data r.
Proof.
  intros (Hret & Hlen) Hbuf. unfold READER_BUFFER_SIZE in *.
  unfold buffer_after, SSL_read_fill.
  rewrite take_insert_ge by lia.
  rewrite (take_ge (rr_data r)) by (unfold READER_BUFFER_SIZE; lia).
  rewrite (take_ge (_ ++ _))
    by (rewrite length_app, length_fmap, length_drop; lia).
  apply take_app_length'. symmetry. apply length_fmap.
Qed.

(** A turn of the loop on a read that delivers bytes. *)
Lemma read_loop_delivers_step
    (r : ssl_read_result) (s : reading) (w : world) (blk : block)
    (data : list byte) :
  delivers r ->
  rd_body s = Some blk ->
  holds blk (rd_allocated_space s) (rd_total_bytes s) data ->
  Z.of_nat (length (rd_read_buffer s)) = READER_BUFFER_SIZE + 1 ->
  rd_total_bytes s + READER_BUFFER_SIZE <= 2 ^ 30 ->
  alloc_ok w (alloc_calls w) = true ->
  exists s' w' blk',
    (forall rest, read_loop (r :: rest) s w = read_loop rest s' w')
    /\ rd_body s' = Some blk'
    /\ holds blk' (rd_allocated_space s') (rd_total_bytes s')
         (data ++ rr_data r)
    /\ length (rd_read_buffer s') = length (rd_read_buffer s)
    /\ rd_end_connection s' = rd_end_connection s
    /\ rd_first_reading_done s' = true
    /\ rd_attempts_after_end_message s' = 0
    /\ alloc_ok w' = alloc_ok w
    /\ (alloc_calls w <= alloc_calls w')%nat
    /\ slept w' = slept w.
Proof.
  intros Hr Hbody Hholds Hbuf Hmax Hok.
  pose proof Hr as (Hret & Hlen).
  destruct (save_read_data_appends blk (buffer_after s r)
              (rd_allocated_space s) (rd_total_bytes s) data (rr_data r) w)
    as (blk' & alloc' & w' & Hrun & Hholds' & Ha & Hc & Hs);
    try assumption; try lia.
  { apply buffer_after_delivers; assumption. }
  rewrite Hlen in Hrun, Hholds'.
  eexists _, w', blk'. split.
  - intros rest. cbn [read_loop].
    rewrite store_read_buffer by (unfold READER_BUFFER_SIZE in *; lia).
    destruct (Z.gtb_spec (rr_ret r) 0); [|lia].
    rewrite Hbody, Hrun. reflexivity.
  - cbn [rd_body rd_allocated_space rd_total_bytes rd_read_buffer
         rd_end_connection rd_first_reading_done
         rd_attempts_after_end_message].
    rewrite int_wrap_id
      by (unfold in_int, INT_MIN, INT_MAX, READER_BUFFER_SIZE in *;
          destruct Hholds as (? & _); lia).
    split; [reflexivity|]. split; [exact Hholds'|].
    split; [apply length_buffer_after|].
    repeat split; assumption || reflexivity.
Qed.

(** The bytes a list of reads delivers, in order. *)
Lemma read_loop_delivers
    (reads : list ssl_read_result) :
  forall (s : reading) (w : world) (blk : block) (data : list byte),
  Forall delivers reads ->
  rd_body s = Some blk ->
  holds blk (rd_allocated_space s) (rd_total_bytes s) data ->
  Z.of_nat (length (rd_read_buffer s)) = READER_BUFFER_SIZE + 1 ->
  rd_total_bytes s + Z.of_nat (length (concat (rr_data <$> reads)))
    + READER_BUFFER_SIZE <= 2 ^ 30 ->
  (forall i, alloc_ok w i = true) ->
  exists s' w' blk',
    (forall rest, read_loop (reads ++ rest) s w = read_loop rest s' w')
    /\ rd_body s' = Some blk'
    /\ holds blk' (rd_allocated_space s') (rd_total_bytes s')
         (data ++ concat (rr_data <$> reads))
    /\ rd_end_connection s' = rd_end_connection s
    /\ (reads <> []
        \/ (rd_first_reading_done s = true
            /\ rd_attempts_after_end_message s = 0) ->
        rd_first_reading_done s' = true
        /\ rd_attempts_after_end_message s' = 0)
    /\ alloc_ok w' = alloc_ok w
    /\ slept w' = slept w
    /\ length (rd_read_buffer s') = length (rd_read_buffer s).
Proof.
  induction reads as [|r reads IH]; intros s w blk data Hall Hbody Hholds
    Hbuf Hmax Hok.
  - exists s, w, blk. simpl. rewrite app_nil_r.
    split; [reflexivity|]. split; [exact Hbody|]. split; [exact Hholds|].
    split; [reflexivity|]. split; [|repeat split; reflexivity].
    intros [Hne|Hs]; [contradiction|exact Hs].
  - apply Forall_cons in Hall as (Hr & Hall).
    rewrite fmap_cons, concat_cons, length_app in Hmax.
    destruct (read_loop_delivers_step r s w blk data)
      as (s1 & w1 & blk1 & Hrun1 & Hbody1 & Hholds1 & Hbuf1 & Hec1 & Hfirst1
          & Hatt1 & Ha1 & _ & Hs1);
      try assumption; try lia; [apply Hok|].
    assert (Htotal1 : rd_total_bytes s1
                      = rd_total_bytes s + Z.of_nat (length (rr_data r))).
    { destruct Hholds as (Ht & _), Hholds1 as (Ht1 & _).
      rewrite Ht1, Ht, length_app. lia. }
    destruct (IH s1 w1 blk1 (data ++ rr_data r))
      as (s2 & w2 & blk2 & Hrun2 & Hbody2 & Hholds2 & Hec2 & Hfirst2
          & Ha2 & Hs2 & Hbuf2);
      try assumption; try lia.
    { intros i. rewrite Ha1. apply Hok. }
    exists s2, w2, blk2. split; [|split; [exact Hbody2|split]].
    + intros rest. rewrite <- app_comm_cons, Hrun1. apply Hrun2.
    + rewrite fmap_cons, concat_cons, app_assoc. exact Hholds2.
    + split; [congruence|]. split; [|repeat split; congruence].
      intros _. apply Hfirst2. right. split; assumption.
Qed.

(** A read of 0 bytes once data has arrived ends the loop and leaves
    the body, the count and the flag as they are. *)
Lemma read_loop_closed
    (r : ssl_read_result) (rest : list ssl_read_result) (s : reading)
    (w : world) :
  rr_ret r = 0 ->
  Z.of_nat (length (rd_read_buffer s)) = READER_BUFFER_SIZE + 1 ->
  rd_first_reading_done s = true ->
  rd_total_bytes s <> 0 ->
  read_loop (r :: rest) s w
  = Done (Reading (rd_body s) (rd_allocated_space s) (rd_total_bytes s)
            true (rd_attempts_after_end_message s)
            (rd_attempts_to_get_first_message s) (rd_end_connection s)
            (buffer_after s r), rest) w.
Proof.
  intros Hret Hbuf Hfirst Htotal. cbn [read_loop].
  rewrite store_read_buffer by (unfold READER_BUFFER_SIZE in Hbuf; lia).
  rewrite Hret. change (0 >? 0) with false. cbv iota.
  rewrite Hfirst. cbn [negb]. unfold treat_SSL_read_error.
  change (0 =? 0) with true. cbv iota.
  destruct (Z.eqb_spec (rd_total_bytes s) 0); [contradiction|].
  reflexivity.
Qed.

Lemma shrink_and_terminate_done
    (blk : block) (allocated_space total_bytes : Z) (data : list byte)
    (w : world) :
  holds blk allocated_space total_bytes data ->
  total_bytes < INT_MAX ->
  alloc_ok w (alloc_calls w) = true ->
  shrink_and_terminate (Some blk) total_bytes w
  = Done ((Some <$> data) ++ [Some x00]) (requested w).
Proof.
  intros (Htotal & Hdata & Halloc & Hblk) Hmax Hok.
  unfold shrink_and_terminate.
  rewrite int_wrap_id by (unfold in_int, INT_MIN, INT_MAX in *; lia).
  rewrite realloc_done by (try exact Hok; lia).
  set (b1 := take _ blk ++ replicate _ None).
  assert (Hlen : length b1 = S (length data)).
  { unfold b1. rewrite length_app, length_take, length_replicate. lia. }
  unfold store.
  destruct (Z.leb_spec 0 total_bytes); [|lia].
  destruct (Z.ltb_spec total_bytes (Z.of_nat (length b1))); [|lia]. simpl.
  replace (Z.to_nat total_bytes) with (length data) by lia.
  rewrite insert_last by exact Hlen.
  unfold b1. rewrite take_app_le by (rewrite length_take; lia).
  rewrite take_take, Nat.min_l by lia. rewrite Hdata. reflexivity.
Qed.

Lemma delivers_some (reads : list ssl_read_result) :
  reads <> [] -> Forall delivers reads ->
  (0 < length (concat (rr_data <$> reads)))%nat.
Proof.
  intros Hne Hall. destruct reads as [|r reads]; [contradiction|].
  apply Forall_cons in Hall as ((Hret & Hlen) & _).
  rewrite fmap_cons, concat_cons, length_app. lia.
Qed.

(** A whole read: reads that deliver bytes, then a read of 0 bytes, with
    an allocator that serves every request. *)
Lemma read_data_from_ssl_message
    (reads : list ssl_read_result) (r : ssl_read_result)
    (rest : list ssl_read_result) (ec : bool) (w : world) :
  reads <> [] ->
  Forall delivers reads ->
  Z.of_nat (length (concat (rr_data <$> reads))) + READER_BUFFER_SIZE
    <= 2 ^ 30 ->
  rr_ret r = 0 ->
  (forall i, alloc_ok w i = true) ->
  exists w',
    read_data_from_ssl (reads ++ r :: rest) ec w
    = Done (Message ((Some <$> concat (rr_data <$> reads)) ++ [Some x00])
              (Z.of_nat (length (concat (rr_data <$> reads)))) ec, rest) w'.
Proof.
  intros Hne Hall Hmax Hret Hok.
  unfold read_data_from_ssl, malloc. rewrite Hok.
  set (s0 := Reading _ _ _ _ _ _ _ _).
  destruct (read_loop_delivers reads s0 (requested w)
              (replicate (Z.to_nat (size_t FULL_BUFFER_SIZE)) None) [])
    as (s1 & w1 & blk1 & Hrun1 & Hbody1 & Hholds1 & Hec1 & Hfirst1
        & Ha1 & _ & Hbuf1);
    try assumption; try reflexivity.
  { assert (Hsz : Z.of_nat (Z.to_nat (size_t FULL_BUFFER_SIZE)) = 1024)
      by reflexivity.
    unfold holds, s0.
    cbn [rd_allocated_space rd_total_bytes length take].
    rewrite length_replicate, Hsz.
    unfold FULL_BUFFER_SIZE, INT_MAX. repeat split; lia. }
  rewrite Hrun1.
  pose proof (delivers_some reads Hne Hall) as Hsome.
  pose proof Hholds1 as (Htotal1 & _). simpl in Htotal1.
  destruct (Hfirst1 (or_introl Hne)) as (Hfirst & _).
  rewrite read_loop_closed
    by (try assumption; try lia; rewrite Hbuf1; reflexivity).
  cbn [rd_body rd_total_bytes rd_end_connection].
  rewrite Hbody1, Hec1.
  rewrite (shrink_and_terminate_done blk1 (rd_allocated_space s1)
             (rd_total_bytes s1) (concat (rr_data <$> reads)) w1).
  - rewrite Htotal1. eexists. reflexivity.
  - exact Hholds1.
  - unfold READER_BUFFER_SIZE, INT_MAX in *. lia.
  - rewrite Ha1. apply Hok.
Qed.

(** ** The message read *)

(** C3 (the code at the failing input).  After reads that deliver chunks
    of 1 to 160 bytes, the would-block that should start the bounded
    wait for the end of the message never reaches
    [treat_SSL_read_error]: a would-block makes [SSL_read] return a
    negative value, and line 146 stores the closing zero at
    [read_buffer[read_bytes]] before the sign of [read_bytes] is
    looked at, outside the array.  No payload is returned. *)
Theorem read_data_from_ssl_would_block_out_of_bounds
    (reads : list ssl_read_result) (r : ssl_read_result)
    (rest : list ssl_read_result) (ec : bool) (w : world) :
  Forall delivers reads ->
  Z.of_nat (length (concat (rr_data <$> reads))) + READER_BUFFER_SIZE
    <= 2 ^ 30 ->
  would_block r ->
  (forall i, alloc_ok w i = true) ->
  read_data_from_ssl (reads ++ r :: rest) ec w = Fault OutOfBounds.
Proof.
  intros Hall Hmax (Hret & _) Hok.
  unfold read_data_from_ssl, malloc. rewrite Hok.
  set (s0 := Reading _ _ _ _ _ _ _ _).
  destruct (read_loop_delivers reads s0 (requested w)
              (replicate (Z.to_nat (size_t FULL_BUFFER_SIZE)) None) [])
    as (s1 & w1 & blk1 & Hrun1 & _);
    try assumption; try reflexivity.
  { assert (Hsz : Z.of_nat (Z.to_nat (size_t FULL_BUFFER_SIZE)) = 1024)
      by reflexivity.
    unfold holds, s0.
    cbn [rd_allocated_space rd_total_bytes length take].
    rewrite length_replicate, Hsz.
    unfold FULL_BUFFER_SIZE, INT_MAX. repeat split; lia. }
  rewrite Hrun1, read_loop_negative by exact Hret. reflexivity.
Qed.

(** 100 bytes, then 60 bytes, then three would-blocks. *)
Lemma read_data_from_ssl_would_block_out_of_bounds_witness :
  read_data_from_ssl
    ([ReadResult 100 (replicate 100 "a"%byte) SSL_ERROR_NONE;
      ReadResult 60 (replicate 60 "b"%byte) SSL_ERROR_NONE]
     ++ ReadResult (-1) [] SSL_ERROR_WANT_READ
        :: [ReadResult (-1) [] SSL_ERROR_WANT_READ;
            ReadResult (-1) [] SSL_ERROR_WANT_READ])
    false (World (fun _ => true) 0 [] [])
  = Fault OutOfBounds.
Proof.
  apply (read_data_from_ssl_would_block_out_of_bounds
           [ReadResult 100 (replicate 100 "a"%byte) SSL_ERROR_NONE;
            ReadResult 60 (replicate 60 "b"%byte) SSL_ERROR_NONE]
           (ReadResult (-1) [] SSL_ERROR_WANT_READ)
           [ReadResult (-1) [] SSL_ERROR_WANT_READ;
            ReadResult (-1) [] SSL_ERROR_WANT_READ]
           false (World (fun _ => true) 0 [] [])).
  - repeat constructor; vm_compute; intros H; discriminate H.
  - vm_compute. intros H; discriminate H.
  - split; [simpl; lia|reflexivity].
  - reflexivity.
Defined.

(** ** The headroom of the body *)

(** C5 (the code at the failing input).  Reads of 160, 160, 160, 160,
    160, 64 and 160 bytes fill the first block, which [malloc] made of
    [allocated_space] = 1024 bytes and not of [allocated_space + 1]:
    when the loop ends [total_bytes] is 1024 and the block is 1024 bytes
    long, with no room for the closing zero byte.  If the last
    reallocation then fails, the zero byte is stored outside the block. *)
Theorem body_filled_to_the_last_byte :
  (exists s w',
     read_loop
       (replicate 5 (ReadResult 160 (replicate 160 "a"%byte) SSL_ERROR_NONE)
        ++ [ReadResult 64 (replicate 64 "b"%byte) SSL_ERROR_NONE;
            ReadResult 160 (replicate 160 "c"%byte) SSL_ERROR_NONE;
            ReadResult 0 [] SSL_ERROR_ZERO_RETURN])
       (Reading (Some (replicate 1024 None)) FULL_BUFFER_SIZE 0 false 0 0
          false (replicate 161 None))
       (World (fun _ => true) 1 [] [])
     = Done (s, []) w'
     /\ rd_total_bytes s = 1024
     /\ rd_allocated_space s = 1024
     /\ length <$> rd_body s = Some 1024%nat)
  /\ read_data_from_ssl
       (replicate 5 (ReadResult 160 (replicate 160 "a"%byte) SSL_ERROR_NONE)
        ++ [ReadResult 64 (replicate 64 "b"%byte) SSL_ERROR_NONE;
            ReadResult 160 (replicate 160 "c"%byte) SSL_ERROR_NONE;
            ReadResult 0 [] SSL_ERROR_ZERO_RETURN])
       false (World (fun i => Nat.eqb i 0) 0 [] [])
     = Fault OutOfBounds.
Proof.
  split.
  - eexists _, _. split; [vm_compute; reflexivity|].
    repeat split; reflexivity.
  - vm_compute. reflexivity.
Qed.

(** ** The end-of-connection flag *)

(** The classifier writes the flag in one case only, and writes true. *)
Lemma treat_SSL_read_error_flag
    (err attempts total_bytes read_bytes : Z) (ec : bool) (w : world) :
  tr_end_connection
    (fst (treat_SSL_read_error err attempts total_bytes read_bytes ec w))
  = if (read_bytes =? 0) && (total_bytes =? 0) then true else ec.
Proof.
  unfold treat_SSL_read_error.
  destruct (read_bytes =? 0); [destruct (total_bytes =? 0); reflexivity|].
  simpl.
  destruct (err =? SSL_ERROR_WANT_READ).
  - destruct (_ =? MAX_RETRIES_TO_STOP_READING); reflexivity.
  - destruct (_ || _); reflexivity.
Qed.

(** A classifier that lets the loop go on had a read that was not 0
    bytes, so it left the flag alone. *)
Lemma treat_SSL_read_error_continues
    (err attempts total_bytes read_bytes : Z) (ec : bool) (w : world) :
  tr_ret (fst (treat_SSL_read_error err attempts total_bytes read_bytes ec w))
    <> -1 ->
  read_bytes <> 0.
Proof.
  unfold treat_SSL_read_error. intros Hret ->. simpl in Hret.
  apply Hret. reflexivity.
Qed.

(** Over the loop: the flag is the one the loop started with, unless the
    last read taken returned 0 bytes while [total_bytes] was 0, and then
    it is true. *)
Lemma read_loop_flag (ssl : list ssl_read_result) :
  forall (s s' : reading) (w w' : world) (rest : list ssl_read_result),
  read_loop ssl s w = Done (s', rest) w' ->
  rd_end_connection s' = rd_end_connection s
  \/ (rd_end_connection s' = true
      /\ rd_total_bytes s' = 0
      /\ exists before r, ssl = before ++ r :: rest /\ rr_ret r = 0).
Proof.
  induction ssl as [|r ssl IH]; intros s s' w w' rest Hrun;
    [discriminate Hrun|].
  assert (Hnext : forall s1 w1,
             rd_end_connection s1 = rd_end_connection s ->
             read_loop ssl s1 w1 = Done (s', rest) w' ->
             rd_end_connection s' = rd_end_connection s
             \/ (rd_end_connection s' = true
                 /\ rd_total_bytes s' = 0
                 /\ exists before r0,
                      r :: ssl = before ++ r0 :: rest /\ rr_ret r0 = 0)).
  { intros s1 w1 Hec1 Hrun1.
    destruct (IH _ _ _ _ _ Hrun1) as [Hsame | (Htrue & Hzero & before & r0
                                                & -> & Hret)].
    - left. congruence.
    - right. split; [exact Htrue|]. split; [exact Hzero|].
      exists (r :: before), r0. split; [reflexivity|exact Hret]. }
  cbn [read_loop] in Hrun.
  destruct (store _ _ _) as [f|read_buffer]; [discriminate Hrun|].
  destruct (rr_ret r >? 0).
  - destruct (save_read_data _ _ _ _ _ _) as [[body' alloc'] w1| |];
      try discriminate Hrun.
    eapply Hnext; [|exact Hrun]. reflexivity.
  - destruct (if negb (rd_first_reading_done s) then _ else _)
      as [[leave attempts_first] w1].
    destruct leave.
    { injection Hrun as <- <- <-. left. reflexivity. }
    pose proof (treat_SSL_read_error_flag (rr_err r)
                  (rd_attempts_after_end_message s) (rd_total_bytes s)
                  (rr_ret r) (rd_end_connection s) w1) as Hflag.
    pose proof (treat_SSL_read_error_continues (rr_err r)
                  (rd_attempts_after_end_message s) (rd_total_bytes s)
                  (rr_ret r) (rd_end_connection s) w1) as Hcont.
    destruct (treat_SSL_read_error _ _ _ _ _ w1) as [t w2].
    cbn [fst] in Hflag, Hcont.
    destruct (Z.eqb_spec (tr_ret t) (-1)) as [Hstop|Hgo].
    + injection Hrun as <- <- <-. cbn [rd_end_connection rd_total_bytes].
      rewrite Hflag.
      destruct (Z.eqb_spec (rr_ret r) 0) as [Hzero|]; [|left; reflexivity].
      destruct (Z.eqb_spec (rd_total_bytes s) 0) as [Hnone|];
        [|left; reflexivity].
      right. split; [reflexivity|]. split; [exact Hnone|].
      exists [], r. split; [reflexivity|exact Hzero].
    + eapply Hnext; [|exact Hrun].
      cbn [rd_end_connection]. rewrite Hflag.
      destruct (Z.eqb_spec (rr_ret r) 0) as [Hzero|]; [|reflexivity].
      destruct (Hcont Hgo Hzero).
Qed.

(** C10. The flag is written in one place, [treat_SSL_read_error], in
    one case, a read of 0 bytes with [total_bytes] 0, and what is
    written there is true; nothing writes false.  So whenever
    [read_data_from_ssl] returns, [*end_connection] is what the caller
    put there, unless the last read taken returned 0 bytes with
    [total_bytes] 0, and then it is true. *)
Theorem end_connection_written_once
    (ssl rest : list ssl_read_result) (ec : bool) (w w' : world)
    (m : message) :
  (forall err attempts total_bytes read_bytes flag w0,
     tr_end_connection
       (fst (treat_SSL_read_error err attempts total_bytes read_bytes
               flag w0))
     = if (read_bytes =? 0) && (total_bytes =? 0) then true else flag)
  /\ (read_data_from_ssl ssl ec w = Done (m, rest) w' ->
      msg_end_connection m = ec
      \/ (msg_end_connection m = true
          /\ msg_total_bytes m = 0
          /\ exists before r, ssl = before ++ r :: rest /\ rr_ret r = 0)).
Proof.
  split; [intros; apply treat_SSL_read_error_flag|].
  unfold read_data_from_ssl. intros Hrun.
  destruct (malloc FULL_BUFFER_SIZE w) as [body w0].
  destruct (read_loop ssl _ w0) as [[s ssl'] w1| |] eqn:Hloop;
    try discriminate Hrun.
  destruct (shrink_and_terminate _ _ w1) as [b w2| |];
    try discriminate Hrun.
  injection Hrun as <- <- <-. cbn [msg_end_connection msg_total_bytes].
  apply read_loop_flag in Hloop. exact Hloop.
Qed.

(** The flag after a message of 3 bytes ended by a read of 0 bytes. *)
Lemma end_connection_written_once_witness :
  false = false
  \/ (false = true
      /\ 3 = 0
      /\ exists before r,
           [ReadResult 3 ["a"; "b"; "c"]%byte SSL_ERROR_NONE;
            ReadResult 0 [] SSL_ERROR_ZERO_RETURN]
           = before ++ r :: [] /\ rr_ret r = 0).
Proof.
  apply (proj2 (end_connection_written_once
                  [ReadResult 3 ["a"; "b"; "c"]%byte SSL_ERROR_NONE;
                   ReadResult 0 [] SSL_ERROR_ZERO_RETURN]
                  [] false (World (fun _ => true) 0 [] [])
                  (World (fun _ => true) 2 [] [])
                  (Message [Some "a"; Some "b"; Some "c"; Some x00]%byte
                     3 false))).
  vm_compute. reflexivity.
Defined.

(** * Further properties of the code *)

(** ** The backoff timer *)

(** X1 ([milliseconds_sleep]). For a duration that is not negative, the
    [timespec] handed to [nanosleep] is a valid one (nanoseconds below
    one second) and is worth exactly the milliseconds asked for; the
    allocator and the output are left alone. *)
Theorem milliseconds_sleep_timespec (milliseconds : Z) (w : world) :
  0 <= milliseconds ->
  exists tv_sec tv_nsec,
    slept (milliseconds_sleep milliseconds w) = (tv_sec, tv_nsec) :: slept w
    /\ 0 <= tv_sec
    /\ 0 <= tv_nsec < 1000000000
    /\ tv_sec * 1000000000 + tv_nsec = milliseconds * 1000000
    /\ alloc_calls (milliseconds_sleep milliseconds w) = alloc_calls w
    /\ stdout (milliseconds_sleep milliseconds w) = stdout w.
Proof.
  intros Hms. unfold milliseconds_sleep. cbn [slept alloc_calls stdout].
  eexists _, _. split; [reflexivity|].
  pose proof (Z.quot_rem' milliseconds 1000) as Hqr.
  pose proof (Z.rem_bound_pos milliseconds 1000 Hms ltac:(lia)) as Hr.
  pose proof (Z.quot_pos milliseconds 1000 Hms ltac:(lia)) as Hq.
  repeat split; try lia.
Qed.

(** 1234 ms are 1 s and 234 000 000 ns. *)
Lemma milliseconds_sleep_timespec_witness :
  exists tv_sec tv_nsec,
    slept (milliseconds_sleep 1234 (World (fun _ => true) 0 [] []))
    = (tv_sec, tv_nsec) :: []
    /\ 0 <= tv_sec
    /\ 0 <= tv_nsec < 1000000000
    /\ tv_sec * 1000000000 + tv_nsec = 1234 * 1000000
    /\ alloc_calls (milliseconds_sleep 1234 (World (fun _ => true) 0 [] []))
       = 0%nat
    /\ stdout (milliseconds_sleep 1234 (World (fun _ => true) 0 [] [])) = [].
Proof.
  apply (milliseconds_sleep_timespec 1234 (World (fun _ => true) 0 [] [])).
  lia.
Defined.

(** ** Appending without growth *)

(** X2 ([save_read_data], first branch). When the capacity exceeds
    [total_bytes] by [READER_BUFFER_SIZE] or more, an append of 1 to
    [READER_BUFFER_SIZE] bytes asks the allocator for nothing and leaves
    the capacity and the size of the block as they are; the cells before
    [total_bytes] and those after the new bytes are untouched, and the
    new bytes are at [total_bytes]. *)
Theorem save_read_data_in_place_keeps
    (blk src : block) (allocated_space total_bytes read_bytes : Z)
    (w : world) :
  0 <= total_bytes <= allocated_space - READER_BUFFER_SIZE ->
  allocated_space <= INT_MAX ->
  allocated_space <= Z.of_nat (length blk) ->
  0 < read_bytes <= READER_BUFFER_SIZE ->
  read_bytes <= Z.of_nat (length src) ->
  exists blk',
    save_read_data (Some blk) src allocated_space total_bytes read_bytes w
    = Done (Some blk', allocated_space) w
    /\ length blk' = length blk
    /\ take (Z.to_nat total_bytes) blk' = take (Z.to_nat total_bytes) blk
    /\ take (Z.to_nat read_bytes) (drop (Z.to_nat total_bytes) blk')
       = take (Z.to_nat read_bytes) src
    /\ drop (Z.to_nat (total_bytes + read_bytes)) blk'
       = drop (Z.to_nat (total_bytes + read_bytes)) blk.
Proof.
  intros Htotal Hmax Hblk Hread Hsrc.
  unfold READER_BUFFER_SIZE, INT_MAX in *.
  rewrite save_read_data_in_place
    by (unfold in_int, INT_MIN, INT_MAX, READER_BUFFER_SIZE; lia).
  eexists. split; [reflexivity|].
  assert (Hl : length (take (Z.to_nat total_bytes) blk)
               = Z.to_nat total_bytes) by (rewrite length_take; lia).
  assert (Hk : length (take (Z.to_nat read_bytes) src)
               = Z.to_nat read_bytes) by (rewrite length_take; lia).
  split; [|split; [|split]].
  - rewrite !length_app, Hl, Hk, length_drop. lia.
  - rewrite take_app_le by lia. rewrite take_take. f_equal. lia.
  - rewrite drop_app_ge by lia. rewrite Hl, Nat.sub_diag, drop_0.
    rewrite take_app_le by lia. rewrite take_take. f_equal. lia.
  - rewrite app_assoc. rewrite drop_app_ge by (rewrite length_app; lia).
    rewrite length_app, Hl, Hk, drop_drop. f_equal. lia.
Qed.

(** 100 bytes appended after 3 in a fresh block. *)
Lemma save_read_data_in_place_keeps_witness :
  exists blk',
    save_read_data
      (Some (replicate 3 (Some "a"%byte) ++ replicate 1021 None))
      (replicate 100 (Some "b"%byte)) 1024 3 100
      (World (fun _ => false) 1 [] [])
    = Done (Some blk', 1024) (World (fun _ => false) 1 [] [])
    /\ length blk' = 1024%nat
    /\ take 3 blk' = replicate 3 (Some "a"%byte)
    /\ take 100 (drop 3 blk') = replicate 100 (Some "b"%byte)
    /\ drop 103 blk' = replicate 921 None.
Proof.
  apply (save_read_data_in_place_keeps
           (replicate 3 (Some "a"%byte) ++ replicate 1021 None)
           (replicate 100 (Some "b"%byte)) 1024 3 100
           (World (fun _ => false) 1 [] []));
    rewrite ?length_app, ?length_replicate;
    unfold INT_MAX, READER_BUFFER_SIZE; lia.
Defined.

(** ** Allocation failures that are not survived *)

(** X3 ([save_read_data], a failed growth that does not fit). When growth is
    needed, the reallocation fails and the old block has no room for the
    new bytes, the copy runs past the end of the old block. *)
Theorem save_read_data_failed_growth_overflows
    (blk src : block) (allocated_space total_bytes read_bytes : Z)
    (w : world) :
  in_int (allocated_space - READER_BUFFER_SIZE) ->
  allocated_space - READER_BUFFER_SIZE < total_bytes ->
  alloc_ok w (alloc_calls w) = false ->
  0 <= read_bytes <= INT_MAX ->
  Z.of_nat (length blk) < total_bytes + read_bytes ->
  save_read_data (Some blk) src allocated_space total_bytes read_bytes w
  = Fault OutOfBounds.
Proof.
  intros Hint Hroom Hfail Hread Hover.
  rewrite save_read_data_growth by assumption. cbv zeta.
  rewrite realloc_failed by exact Hfail. cbn [fst].
  unfold memcpy. rewrite size_t_id by exact Hread.
  destruct (Z.leb_spec (total_bytes + read_bytes) (Z.of_nat (length blk)));
    [lia|].
  rewrite andb_false_r. reflexivity.
Qed.

(** 1000 bytes gathered in the first block, 100 more, no memory left. *)
Lemma save_read_data_failed_growth_overflows_witness :
  save_read_data
    (Some (replicate 1000 (Some "a"%byte) ++ replicate 24 None))
    (replicate 100 (Some "b"%byte)) 1024 1000 100
    (World (fun _ => false) 1 [] [])
  = Fault OutOfBounds.
Proof.
  apply (save_read_data_failed_growth_overflows
           (replicate 1000 (Some "a"%byte) ++ replicate 24 None)
           (replicate 100 (Some "b"%byte)) 1024 1000 100
           (World (fun _ => false) 1 [] []));
    try reflexivity;
    rewrite ?length_app, ?length_replicate;
    unfold in_int, INT_MIN, INT_MAX, READER_BUFFER_SIZE; lia.
Defined.

(** X4 ([read_data_from_ssl], the unchecked [malloc]). The result of the
    first [malloc] is not tested: when it fails and the first read
    delivers bytes, they are copied through the null pointer.  (A read
    that claimed more than the [READER_BUFFER_SIZE] bytes asked for,
    which [SSL_read] does not do, would already put the closing zero of
    line 146 outside [read_buffer].) *)
Theorem read_data_from_ssl_null_body
    (r : ssl_read_result) (rest : list ssl_read_result) (ec : bool)
    (w : world) :
  alloc_ok w (alloc_calls w) = false ->
  0 < rr_ret r ->
  (rr_ret r <= READER_BUFFER_SIZE ->
   read_data_from_ssl (r :: rest) ec w = Fault NullPointer)
  /\ (READER_BUFFER_SIZE < rr_ret r ->
      read_data_from_ssl (r :: rest) ec w = Fault OutOfBounds).
Proof.
  intros Hfail Hret. unfold read_data_from_ssl, malloc. rewrite Hfail.
  cbn [read_loop]. split; intros Hsize.
  - rewrite store_read_buffer
      by (cbn [rd_read_buffer]; rewrite length_replicate;
          unfold READER_BUFFER_SIZE in *; lia).
    cbn [rd_body rd_allocated_space rd_total_bytes].
    destruct (Z.gtb_spec (rr_ret r) 0); [|lia].
    unfold save_read_data.
    change (int_wrap (FULL_BUFFER_SIZE - READER_BUFFER_SIZE) >=? 0)
      with true.
    reflexivity.
  - unfold store. rewrite length_SSL_read_fill.
    cbn [rd_read_buffer]. rewrite length_replicate.
    destruct (Z.ltb_spec (rr_ret r)
                (Z.of_nat (Z.to_nat (READER_BUFFER_SIZE + 1))));
      [unfold READER_BUFFER_SIZE in *; lia|].
    rewrite andb_false_r. reflexivity.
Qed.

(** No memory at all, and 5 bytes arrive. *)
Lemma read_data_from_ssl_null_body_witness :
  read_data_from_ssl
    [ReadResult 5 ["h"; "e"; "l"; "l"; "o"]%byte SSL_ERROR_NONE]
    false (World (fun _ => false) 0 [] [])
  = Fault NullPointer.
Proof.
  apply (read_data_from_ssl_null_body
           (ReadResult 5 ["h"; "e"; "l"; "l"; "o"]%byte SSL_ERROR_NONE)
           [] false (World (fun _ => false) 0 [] [])).
  - reflexivity.
  - simpl. lia.
  - unfold READER_BUFFER_SIZE. simpl. lia.
Defined.

(** ** When the read returns *)

Lemma read_loop_last_read_failed (ssl : list ssl_read_result) :
  forall (s s' : reading) (w w' : world) (rest : list ssl_read_result),
  read_loop ssl s w = Done (s', rest) w' ->
  exists before r, ssl = before ++ r :: rest /\ rr_ret r <= 0.
Proof.
  induction ssl as [|r ssl IH]; intros s s' w w' rest Hrun;
    [discriminate Hrun|].
  assert (Hnext : forall s1 w1,
             read_loop ssl s1 w1 = Done (s', rest) w' ->
             exists before r0, r :: ssl = before ++ r0 :: rest
                               /\ rr_ret r0 <= 0).
  { intros s1 w1 Hrun1.
    destruct (IH _ _ _ _ _ Hrun1) as (before & r0 & -> & Hret).
    exists (r :: before), r0. split; [reflexivity|exact Hret]. }
  cbn [read_loop] in Hrun.
  destruct (store _ _ _) as [f|read_buffer]; [discriminate Hrun|].
  destruct (Z.gtb_spec (rr_ret r) 0) as [Hpos|Hfail].
  - destruct (save_read_data _ _ _ _ _ _) as [[body' alloc'] w1| |];
      try discriminate Hrun.
    exact (Hnext _ _ Hrun).
  - destruct (if negb (rd_first_reading_done s) then _ else _)
      as [[leave attempts_first] w1].
    destruct leave.
    { injection Hrun as _ <- _. exists [], r. split; [reflexivity|lia]. }
    destruct (treat_SSL_read_error _ _ _ _ _ w1) as [t w2].
    destruct (tr_ret t =? -1).
    + injection Hrun as _ <- _. exists [], r. split; [reflexivity|lia].
    + exact (Hnext _ _ Hrun).
Qed.

(** X5 ([read_data_from_ssl], the [do ... while (1)] loop). The call
    returns only after a read that failed (0 or a negative value): the
    last read it took from the channel is such a read.  There is no cap
    on the size of a message: as long as reads deliver bytes the call
    goes on. *)
Theorem read_data_from_ssl_returns_after_failure
    (ssl rest : list ssl_read_result) (ec : bool) (w w' : world)
    (m : message) :
  read_data_from_ssl ssl ec w = Done (m, rest) w' ->
  exists before r, ssl = before ++ r :: rest /\ rr_ret r <= 0.
Proof.
  unfold read_data_from_ssl. intros Hrun.
  destruct (malloc FULL_BUFFER_SIZE w) as [body w0].
  destruct (read_loop ssl _ w0) as [[s ssl'] w1| |] eqn:Hloop;
    try discriminate Hrun.
  destruct (shrink_and_terminate _ _ w1) as [b w2| |];
    try discriminate Hrun.
  injection Hrun as _ <- _.
  exact (read_loop_last_read_failed _ _ _ _ _ _ Hloop).
Qed.

(** 3 bytes, a read of 0 bytes, and a read that is left in the channel. *)
Lemma read_data_from_ssl_returns_after_failure_witness :
  exists before r,
    [ReadResult 3 ["a"; "b"; "c"]%byte SSL_ERROR_NONE;
     ReadResult 0 [] SSL_ERROR_ZERO_RETURN;
     ReadResult 1 ["d"]%byte SSL_ERROR_NONE]
    = before ++ r :: [ReadResult 1 ["d"]%byte SSL_ERROR_NONE]
    /\ rr_ret r <= 0.
Proof.
  apply (read_data_from_ssl_returns_after_failure
           [ReadResult 3 ["a"; "b"; "c"]%byte SSL_ERROR_NONE;
            ReadResult 0 [] SSL_ERROR_ZERO_RETURN;
            ReadResult 1 ["d"]%byte SSL_ERROR_NONE]
           [ReadResult 1 ["d"]%byte SSL_ERROR_NONE]
           false (World (fun _ => true) 0 [] [])
           (World (fun _ => true) 2 [] [])
           (Message [Some "a"; Some "b"; Some "c"; Some x00]%byte 3 false)).
  vm_compute. reflexivity.
Defined.

(** ** Whatever the channel and the allocator do *)

Lemma memcpy_returned (dst : option block) (off : Z) (src : block) (n : Z)
    (b : block) :
  0 <= n <= INT_MAX ->
  memcpy dst off src n = inr b ->
  exists d,
    dst = Some d
    /\ 0 <= off /\ off + n <= Z.of_nat (length d)
    /\ n <= Z.of_nat (length src)
    /\ b = take (Z.to_nat off) d ++ take (Z.to_nat n) src
           ++ drop (Z.to_nat off + Z.to_nat n) d.
Proof.
  intros Hn Hcpy. unfold memcpy in Hcpy.
  destruct dst as [d|]; [|discriminate Hcpy].
  rewrite size_t_id in Hcpy by exact Hn.
  destruct (Z.leb_spec 0 off); [|discriminate Hcpy].
  destruct (Z.leb_spec (off + n) (Z.of_nat (length d)));
    [|discriminate Hcpy].
  destruct (Z.leb_spec n (Z.of_nat (length src))); [|discriminate Hcpy].
  injection Hcpy as <-. exists d. repeat split; assumption.
Qed.

(** What a block is after a copy that stayed inside it. *)
Lemma copied_block (d src : block) (off n : nat) :
  (off + n <= length d)%nat -> (n <= length src)%nat ->
  take off (take off d ++ take n src ++ drop (off + n) d) = take off d
  /\ take n (drop off (take off d ++ take n src ++ drop (off + n) d))
     = take n src.
Proof.
  intros Hfit Hsrc.
  assert (Hl : length (take off d) = off) by (rewrite length_take; lia).
  split.
  - rewrite take_app_le by lia. rewrite take_take. f_equal. lia.
  - rewrite drop_app_ge by lia. rewrite Hl, Nat.sub_diag, drop_0.
    rewrite take_app_le by (rewrite length_take; lia).
    rewrite take_take. f_equal. lia.
Qed.

(** An append that returns, on either path and whatever the allocator
    answered, left the bytes before [total_bytes] alone and put the new
    ones at [total_bytes]. *)
Lemma save_read_data_returned
    (body : option block) (src : block)
    (allocated_space total_bytes read_bytes : Z) (w : world)
    (body' : option block) (allocated_space' : Z) (w' : world) :
  0 <= total_bytes -> 0 < read_bytes <= INT_MAX ->
  save_read_data body src allocated_space total_bytes read_bytes w
  = Done (body', allocated_space') w' ->
  exists blk',
    body' = Some blk'
    /\ take (Z.to_nat read_bytes) (drop (Z.to_nat total_bytes) blk')
       = take (Z.to_nat read_bytes) src
    /\ (forall blk, body = Some blk ->
        total_bytes <= Z.of_nat (length blk) ->
        take (Z.to_nat total_bytes) blk' = take (Z.to_nat total_bytes) blk).
Proof.
  intros Htotal Hread Hrun. unfold save_read_data in Hrun.
  destruct (_ >=? _).
  - destruct (memcpy body _ _ _) as [f|b] eqn:Hcpy; [discriminate Hrun|].
    injection Hrun as <- _ _.
    apply memcpy_returned in Hcpy as (d & -> & Hoff & Hfit & Hsrc & ->);
      [|lia].
    destruct (copied_block d src (Z.to_nat total_bytes)
                (Z.to_nat read_bytes)) as (Hpre & Hnew); try lia.
    eexists. split; [reflexivity|]. split; [exact Hnew|].
    intros blk [= <-] _. exact Hpre.
  - destruct (realloc body _ w) as [reallocated w1] eqn:Hre.
    destruct (memcpy _ _ _ _) as [f|b] eqn:Hcpy; [discriminate Hrun|].
    injection Hrun as <- _ _.
    apply memcpy_returned in Hcpy as (d & Hd & Hoff & Hfit & Hsrc & ->);
      [|lia].
    destruct (copied_block d src (Z.to_nat total_bytes)
                (Z.to_nat read_bytes)) as (Hpre & Hnew); try lia.
    eexists. split; [reflexivity|]. split; [exact Hnew|].
    intros blk -> Hblk. rewrite Hpre.
    destruct reallocated as [b0|].
    + injection Hd as ->. unfold realloc in Hre.
      destruct (alloc_ok w (alloc_calls w)); [|discriminate Hre].
      injection Hre as <- _.
      rewrite length_app, length_take, length_replicate in Hfit.
      rewrite take_app_le by (rewrite length_take; lia).
      rewrite take_take. f_equal. lia.
    + injection Hd as ->. reflexivity.
Qed.

Lemma gathered_append
    (body : option block) (src : block)
    (allocated_space total_bytes : Z) (w : world)
    (body' : option block) (allocated_space' : Z) (w' : world)
    (data chunk : list byte) :
  gathered body total_bytes data ->
  0 < Z.of_nat (length chunk) <= INT_MAX ->
  take (length chunk) src = Some <$> chunk ->
  save_read_data body src allocated_space total_bytes
    (Z.of_nat (length chunk)) w
  = Done (body', allocated_space') w' ->
  gathered body' (total_bytes + Z.of_nat (length chunk)) (data ++ chunk).
Proof.
  intros (Htotal & Hbody) Hchunk Hsrc Hrun.
  apply save_read_data_returned in Hrun as (blk' & -> & Hnew & Hpre);
    [|lia|lia].
  rewrite Htotal, !Nat2Z.id in *. rewrite Hsrc in Hnew.
  split; [rewrite length_app; lia|].
  rewrite length_app, fmap_app.
  rewrite <- (take_drop (length data) blk') at 1.
  assert (Hd : take (length data) blk' = Some <$> data).
  { destruct body as [blk|].
    - rewrite (Hpre blk eq_refl); [exact Hbody|].
      assert (H : length (take (length data) blk) = length data)
        by (rewrite Hbody, length_fmap; reflexivity).
      rewrite length_take in H. lia.
    - subst data. reflexivity. }
  assert (Hl : length (take (length data) blk') = length data)
    by (rewrite Hd, length_fmap; reflexivity).
  rewrite take_app_ge by lia. rewrite Hl.
  replace (length data + length chunk - length data)%nat
    with (length chunk) by lia.
  rewrite Hd, Hnew. reflexivity.
Qed.

(** The end of the read, whatever the allocator answers: a body that
    comes back holds the same bytes and the closing zero byte. *)
Lemma shrink_and_terminate_returned
    (body : option block) (total_bytes : Z) (data : list byte)
    (w w' : world) (b : block) :
  gathered body total_bytes data ->
  total_bytes < INT_MAX ->
  shrink_and_terminate body total_bytes w = Done b w' ->
  take (length data) b = Some <$> data
  /\ b !! length data = Some (Some x00).
Proof.
  intros (Htotal & Hbody) Hmax Hrun. unfold shrink_and_terminate in Hrun.
  rewrite int_wrap_id in Hrun
    by (unfold in_int, INT_MIN, INT_MAX in *; lia).
  destruct (realloc body (total_bytes + 1) w) as [reallocated w1] eqn:Hre.
  destruct (store _ total_bytes x00) as [f|b1] eqn:Hst; [discriminate Hrun|].
  injection Hrun as <- _.
  unfold store in Hst.
  destruct (match reallocated with Some b0 => Some b0 | None => body end)
    as [d|] eqn:Hd; [|discriminate Hst].
  destruct (Z.leb_spec 0 total_bytes); [|discriminate Hst].
  destruct (Z.ltb_spec total_bytes (Z.of_nat (length d)));
    [|discriminate Hst].
  injection Hst as <-.
  replace (Z.to_nat total_bytes) with (length data) by lia.
  split; [|apply list_lookup_insert_eq; lia].
  rewrite take_insert_ge by lia.
  destruct reallocated as [b0|].
  - injection Hd as ->. unfold realloc in Hre. destruct body as [blk|].
    + destruct (alloc_ok w (alloc_calls w)); [|discriminate Hre].
      injection Hre as <- _.
      assert (Hl : length (take (length data) blk) = length data)
        by (rewrite Hbody, length_fmap; reflexivity).
      rewrite length_take in Hl.
      rewrite size_t_id by (unfold INT_MAX in *; lia).
      rewrite take_app_le by (rewrite length_take; lia).
      rewrite take_take, Nat.min_l by lia. exact Hbody.
    + subst data. reflexivity.
  - destruct body as [blk|]; [|discriminate Hd].
    injection Hd as ->. exact Hbody.
Qed.

Lemma delivered_cons (r : ssl_read_result) (ssl : list ssl_read_result) :
  delivered (r :: ssl)
  = (if 0 <? rr_ret r then rr_data r else []) ++ delivered ssl.
Proof. reflexivity. Qed.

(** Over the loop, from the start of a read on: the body holds the bytes
    delivered so far, and the flag is not written. *)
Lemma read_loop_gathers (ssl : list ssl_read_result) :
  forall (s : reading) (w : world) (data : list byte) (s' : reading)
         (rest : list ssl_read_result) (w' : world),
  Forall well_formed ssl ->
  Z.of_nat (length data) + READER_BUFFER_SIZE * Z.of_nat (length ssl)
    <= INT_MAX ->
  gathered (rd_body s) (rd_total_bytes s) data ->
  (rd_first_reading_done s = false ->
   data = [] /\ rd_attempts_to_get_first_message s = 0) ->
  (rd_first_reading_done s = true -> data <> []) ->
  Z.of_nat (length (rd_read_buffer s)) = READER_BUFFER_SIZE + 1 ->
  read_loop ssl s w = Done (s', rest) w' ->
  exists before,
    ssl = before ++ rest
    /\ gathered (rd_body s') (rd_total_bytes s') (data ++ delivered before)
    /\ rd_end_connection s' = rd_end_connection s.
Proof.
  induction ssl as [|r ssl IH];
    intros s w data s' rest w' Hwf Hmax Hg Hfresh Hsome Hbuf Hrun;
    [discriminate Hrun|].
  apply Forall_cons in Hwf as (Hr & Hwf).
  rewrite length_cons, Nat2Z.inj_succ in Hmax.
  unfold READER_BUFFER_SIZE in Hmax.
  pose proof Hg as (Htotal & _).
  cbn [read_loop] in Hrun.
  destruct (store _ _ _) as [f|read_buffer] eqn:Hst; [discriminate Hrun|].
  apply store_read_buffer_returned in Hst as (Hsign & ->).
  destruct (Z.gtb_spec (rr_ret r) 0) as [Hpos|Hfail].
  - destruct Hr as [Hfail|Hr]; [lia|]. pose proof Hr as (Hret & Hlen).
    unfold READER_BUFFER_SIZE in Hret.
    destruct (save_read_data _ _ _ _ _ _) as [[body' alloc'] w1| |] eqn:Hsave;
      try discriminate Hrun.
    rewrite <- Hlen in Hsave.
    apply (gathered_append _ _ _ _ _ _ _ _ data (rr_data r)) in Hsave;
      [|exact Hg|unfold INT_MAX; lia
       |apply buffer_after_delivers; assumption].
    rewrite Hlen in Hsave.
    apply (IH _ _ (data ++ rr_data r)) in Hrun
      as (before & -> & Hg' & Hec); try assumption.
    + exists (r :: before). split; [reflexivity|].
      rewrite delivered_cons.
      destruct (Z.ltb_spec 0 (rr_ret r)); [|lia].
      rewrite app_assoc. split; [exact Hg'|exact Hec].
    + rewrite length_app. unfold READER_BUFFER_SIZE. lia.
    + cbn [rd_body rd_total_bytes].
      rewrite int_wrap_id
        by (unfold in_int, INT_MIN, INT_MAX in *; lia).
      exact Hsave.
    + intros H. discriminate H.
    + intros _ Hnil. apply (f_equal length) in Hnil.
      rewrite length_app in Hnil. simpl in Hnil. lia.
    + cbn [rd_read_buffer]. rewrite length_buffer_after. exact Hbuf.
  - assert (Hnone : delivered [r] = []).
    { rewrite delivered_cons. destruct (Z.ltb_spec 0 (rr_ret r)); [lia|].
      reflexivity. }
    assert (Hstops : forall s1,
               rd_body s1 = rd_body s -> rd_total_bytes s1 = rd_total_bytes s ->
               rd_end_connection s1 = rd_end_connection s ->
               exists before,
                 r :: ssl = before ++ ssl
                 /\ gathered (rd_body s1) (rd_total_bytes s1)
                      (data ++ delivered before)
                 /\ rd_end_connection s1 = rd_end_connection s).
    { intros s1 Hb Ht He. exists [r]. split; [reflexivity|].
      rewrite Hnone, app_nil_r, Hb, Ht. split; assumption. }
    destruct (rd_first_reading_done s) eqn:Hfirst.
    + cbn [negb] in Hrun.
      pose proof (treat_SSL_read_error_flag (rr_err r)
                    (rd_attempts_after_end_message s) (rd_total_bytes s)
                    (rr_ret r) (rd_end_connection s) w) as Hflag.
      destruct (treat_SSL_read_error _ _ _ _ _ w) as [t w2].
      cbn [fst] in Hflag.
      assert (Hkeep : tr_end_connection t = rd_end_connection s).
      { rewrite Hflag.
        destruct (Z.eqb_spec (rd_total_bytes s) 0) as [Hzero|];
          [|rewrite andb_false_r; reflexivity].
        destruct (Hsome eq_refl). destruct data; [reflexivity|].
        simpl in Htotal. lia. }
      destruct (tr_ret t =? -1).
      * injection Hrun as <- <- _. apply Hstops; try reflexivity.
        exact Hkeep.
      * apply (IH _ _ data) in Hrun as (before & -> & Hg' & Hec);
          try assumption; try lia.
        -- exists (r :: before). split; [reflexivity|].
           rewrite delivered_cons.
           destruct (Z.ltb_spec 0 (rr_ret r)); [lia|].
           split; [exact Hg'|]. rewrite Hec. exact Hkeep.
        -- unfold READER_BUFFER_SIZE. lia.
        -- cbn [rd_read_buffer]. rewrite length_buffer_after. exact Hbuf.
    + cbn [negb] in Hrun. destruct (Hfresh eq_refl) as (_ & Hcount).
      rewrite Hcount in Hrun. unfold wait_for_first_message in Hrun.
      change (int_wrap (0 + 1) =? MAX_RETRIES_TO_START_READING) with false
        in Hrun.
      cbv iota zeta beta in Hrun.
      change (negb (0 =? -1)) with true in Hrun. cbv iota in Hrun.
      injection Hrun as <- <- _. apply Hstops; reflexivity.
Qed.

(** The same from the call to the return. *)
Lemma read_data_from_ssl_gathers
    (ssl rest : list ssl_read_result) (ec : bool) (w w' : world)
    (m : message) :
  Forall well_formed ssl ->
  READER_BUFFER_SIZE * Z.of_nat (length ssl) < INT_MAX ->
  read_data_from_ssl ssl ec w = Done (m, rest) w' ->
  exists before,
    ssl = before ++ rest
    /\ msg_total_bytes m = Z.of_nat (length (delivered before))
    /\ take (length (delivered before)) (msg_body m)
       = Some <$> delivered before
    /\ msg_body m !! length (delivered before) = Some (Some x00)
    /\ msg_end_connection m = ec.
Proof.
  intros Hwf Hmax Hrun. unfold read_data_from_ssl in Hrun.
  destruct (malloc FULL_BUFFER_SIZE w) as [body w0] eqn:Hmalloc.
  destruct (read_loop ssl _ w0) as [[s ssl'] w1| |] eqn:Hloop;
    try discriminate Hrun.
  destruct (shrink_and_terminate _ _ w1) as [b w2| |] eqn:Hshrink;
    try discriminate Hrun.
  injection Hrun as <- <- _.
  apply (read_loop_gathers _ _ _ []) in Hloop
    as (before & -> & Hg & Hec).
  - simpl app in Hg. exists before. split; [reflexivity|].
    cbn [msg_total_bytes msg_body msg_end_connection].
    pose proof Hg as (Htotal & _).
    apply (shrink_and_terminate_returned _ _ (delivered before)) in Hshrink
      as (Hdata & Hzero); [| exact Hg |].
    + repeat split; assumption.
    + rewrite Htotal.
      assert (Hle : Z.of_nat (length (delivered before))
                    <= READER_BUFFER_SIZE * Z.of_nat (length before)).
      { apply Forall_app in Hwf as (Hwf & _). clear - Hwf.
        induction Hwf as [|r l Hr _ IH]; [reflexivity|].
        rewrite delivered_cons, length_app, length_cons.
        destruct (Z.ltb_spec 0 (rr_ret r)).
        - destruct Hr as [?|(Hret & Hlen)]; [lia|].
          unfold READER_BUFFER_SIZE in *. lia.
        - simpl. unfold READER_BUFFER_SIZE in *. lia. }
      rewrite length_app in Hmax. unfold READER_BUFFER_SIZE in *. lia.
  - exact Hwf.
  - simpl. lia.
  - cbn [rd_body rd_total_bytes]. split; [reflexivity|].
    unfold malloc in Hmalloc.
    destruct (alloc_ok w (alloc_calls w)); injection Hmalloc as <- _;
      reflexivity.
  - intros _. split; reflexivity.
  - intros H. discriminate H.
  - reflexivity.
Qed.

(** X9 ([read_data_from_ssl], the whole call). Whatever the channel
    answers within the contract of [SSL_read] and whatever the allocator
    answers, a call that returns hands back exactly the bytes that the
    reads it took delivered, in their order: [*total_bytes] is their
    number, the body starts with them and has the zero byte right after
    them.  Failed reads, would-blocks and failed reallocations change
    nothing to that. *)
Theorem read_data_from_ssl_returns_what_arrived
    (ssl rest : list ssl_read_result) (ec : bool) (w w' : world)
    (m : message) :
  Forall well_formed ssl ->
  READER_BUFFER_SIZE * Z.of_nat (length ssl) < INT_MAX ->
  read_data_from_ssl ssl ec w = Done (m, rest) w' ->
  exists before,
    ssl = before ++ rest
    /\ msg_total_bytes m = Z.of_nat (length (delivered before))
    /\ take (length (delivered before)) (msg_body m)
       = Some <$> delivered before
    /\ msg_body m !! length (delivered before) = Some (Some x00).
Proof.
  intros Hwf Hmax Hrun.
  destruct (read_data_from_ssl_gathers ssl rest ec w w' m Hwf Hmax Hrun)
    as (before & Hssl & Htotal & Hdata & Hzero & _).
  exists before. repeat split; assumption.
Qed.

(** "ab", "c", the peer closes, and the closing reallocation fails: the
    first block comes back, with the 3 bytes. *)
Lemma read_data_from_ssl_returns_what_arrived_witness :
  exists before,
    [ReadResult 2 ["a"; "b"]%byte SSL_ERROR_NONE;
     ReadResult 1 ["c"]%byte SSL_ERROR_NONE;
     ReadResult 0 [] SSL_ERROR_ZERO_RETURN;
     ReadResult 1 ["d"]%byte SSL_ERROR_NONE]
    = before ++ [ReadResult 1 ["d"]%byte SSL_ERROR_NONE]
    /\ 3 = Z.of_nat (length (delivered before))
    /\ take (length (delivered before))
         ((Some <$> ["a"; "b"; "c"; x00]%byte) ++ replicate 1020 None)
       = Some <$> delivered before
    /\ ((Some <$> ["a"; "b"; "c"; x00]%byte) ++ replicate 1020 None)
       !! length (delivered before) = Some (Some x00).
Proof.
  apply (read_data_from_ssl_returns_what_arrived
           [ReadResult 2 ["a"; "b"]%byte SSL_ERROR_NONE;
            ReadResult 1 ["c"]%byte SSL_ERROR_NONE;
            ReadResult 0 [] SSL_ERROR_ZERO_RETURN;
            ReadResult 1 ["d"]%byte SSL_ERROR_NONE]
           [ReadResult 1 ["d"]%byte SSL_ERROR_NONE]
           false (World (fun i => Nat.eqb i 0) 0 [] [])
           (World (fun i => Nat.eqb i 0) 2 [] [])
           (Message ((Some <$> ["a"; "b"; "c"; x00]%byte)
                     ++ replicate 1020 None) 3 false)).
  - repeat constructor; unfold well_formed, delivers, READER_BUFFER_SIZE;
      simpl; lia.
  - unfold READER_BUFFER_SIZE, INT_MAX. simpl. lia.
  - vm_compute. reflexivity.
Defined.

(** X10 ([read_data_from_ssl], [*end_connection]). The call never sets
    the flag: whatever the channel answers within the contract of
    [SSL_read] and whatever the allocator answers, a call that returns
    leaves in [*end_connection] what the caller put there.  A read of 0
    bytes before any data leaves the loop at the first-message wait, and
    one after data finds [total_bytes] above 0. *)
Theorem read_data_from_ssl_never_sets_flag
    (ssl rest : list ssl_read_result) (ec : bool) (w w' : world)
    (m : message) :
  Forall well_formed ssl ->
  READER_BUFFER_SIZE * Z.of_nat (length ssl) < INT_MAX ->
  read_data_from_ssl ssl ec w = Done (m, rest) w' ->
  msg_end_connection m = ec.
Proof.
  intros Hwf Hmax Hrun.
  destruct (read_data_from_ssl_gathers ssl rest ec w w' m Hwf Hmax Hrun)
    as (before & _ & _ & _ & _ & Hec).
  exact Hec.
Qed.

(** The peer closes before sending anything. *)
Lemma read_data_from_ssl_never_sets_flag_witness :
  msg_end_connection (Message [Some x00] 0 false) = false.
Proof.
  apply (read_data_from_ssl_never_sets_flag
           [ReadResult 0 [] SSL_ERROR_ZERO_RETURN] [] false
           (World (fun _ => true) 0 [] [])
           (World (fun _ => true) 2 [(0, 10000000)] [])
           (Message [Some x00] 0 false)).
  - repeat constructor. unfold well_formed. simpl. lia.
  - unfold READER_BUFFER_SIZE, INT_MAX. simpl. lia.
  - vm_compute. reflexivity.
Defined.

(** ** What a read costs *)

Lemma save_read_data_world
    (body : option block) (src : block)
    (allocated_space total_bytes read_bytes : Z) (w : world)
    (r : option block * Z) (w' : world) :
  save_read_data body src allocated_space total_bytes read_bytes w
  = Done r w' ->
  slept w' = slept w /\ stdout w' = stdout w.
Proof.
  unfold save_read_data. intros Hrun. destruct (_ >=? _).
  - destruct (memcpy _ _ _ _); [discriminate Hrun|].
    injection Hrun as _ <-. split; reflexivity.
  - destruct (realloc body _ w) as [reallocated w1] eqn:Hre.
    destruct (memcpy _ _ _ _); [discriminate Hrun|].
    injection Hrun as _ <-.
    unfold realloc, malloc in Hre.
    destruct body; destruct (alloc_ok w (alloc_calls w));
      injection Hre as _ <-; split; reflexivity.
Qed.

Lemma treat_SSL_read_error_world
    (err attempts total_bytes read_bytes : Z) (ec : bool) (w : world) :
  let t := fst (treat_SSL_read_error err attempts total_bytes read_bytes
                  ec w) in
  let w' := snd (treat_SSL_read_error err attempts total_bytes read_bytes
                   ec w) in
  (slept w' = slept w \/ slept w' = (0, 10000000) :: slept w)
  /\ (stdout w' = stdout w
      \/ (stdout w' = "(error) Error in read function!"%string :: stdout w
          /\ tr_ret t = -1 /\ read_bytes <> 0
          /\ (err = SSL_ERROR_WANT_WRITE \/ err = SSL_ERROR_SYSCALL
              \/ err = SSL_ERROR_SSL))).
Proof.
  unfold treat_SSL_read_error. cbv zeta.
  destruct (Z.eqb_spec read_bytes 0); [split; left; reflexivity|].
  destruct (err =? SSL_ERROR_WANT_READ).
  - destruct (_ =? MAX_RETRIES_TO_STOP_READING);
      (split; [right|left]; reflexivity).
  - destruct (Z.eqb_spec err SSL_ERROR_WANT_WRITE) as [Hw|_].
    { split; [left; reflexivity|right]. cbn.
      split; [reflexivity|]. split; [reflexivity|]. split; [assumption|].
      tauto. }
    destruct (Z.eqb_spec err SSL_ERROR_SYSCALL) as [Hsys|_].
    { split; [left; reflexivity|right]. cbn.
      split; [reflexivity|]. split; [reflexivity|]. split; [assumption|].
      tauto. }
    destruct (Z.eqb_spec err SSL_ERROR_SSL) as [Hssl|_].
    { split; [left; reflexivity|right]. cbn.
      split; [reflexivity|]. split; [reflexivity|]. split; [assumption|].
      tauto. }
    split; left; reflexivity.
Qed.

(** Over the loop: one sleep of 10 ms at most for each failed read, and
    one line printed at most, by the read that ends the loop. *)
Lemma read_loop_costs (ssl : list ssl_read_result) :
  forall (s s' : reading) (w w' : world) (rest : list ssl_read_result),
  (rd_first_reading_done s = false ->
   rd_attempts_to_get_first_message s = 0) ->
  read_loop ssl s w = Done (s', rest) w' ->
  exists taken n,
    ssl = taken ++ rest
    /\ slept w' = replicate n (0, 10000000) ++ slept w
    /\ (n <= length (filter (fun r => (rr_ret r <= 0)%Z) taken))%nat
    /\ (stdout w' = stdout w
        \/ (stdout w' = "(error) Error in read function!"%string :: stdout w
            /\ exists before last,
                 taken = before ++ [last] /\ abnormal last)).
Proof.
  induction ssl as [|r ssl IH]; intros s s' w w' rest Hfresh Hrun;
    [discriminate Hrun|].
  cbn [read_loop] in Hrun.
  destruct (store _ _ _) as [f|read_buffer]; [discriminate Hrun|].
  destruct (Z.gtb_spec (rr_ret r) 0) as [Hpos|Hfail].
  - destruct (save_read_data _ _ _ _ _ _) as [[body' alloc'] w1| |] eqn:Hsave;
      try discriminate Hrun.
    apply save_read_data_world in Hsave as (Hs1 & Ho1).
    apply IH in Hrun as (taken & n & -> & Hs & Hn & Ho);
      [|intros H; discriminate H].
    exists (r :: taken), n. split; [reflexivity|].
    split; [congruence|]. split.
    + rewrite filter_cons_False by lia. exact Hn.
    + destruct Ho as [Ho|(Ho & before & last & -> & Hab)].
      * left. congruence.
      * right. split; [congruence|].
        exists (r :: before), last. split; [reflexivity|exact Hab].
  - destruct (rd_first_reading_done s) eqn:Hfirst.
    + cbn [negb] in Hrun.
      pose proof (treat_SSL_read_error_world (rr_err r)
                    (rd_attempts_after_end_message s) (rd_total_bytes s)
                    (rr_ret r) (rd_end_connection s) w) as Hworld.
      destruct (treat_SSL_read_error _ _ _ _ _ w) as [t w2].
      cbn [fst snd] in Hworld. destruct Hworld as (Hs2 & Ho2).
      destruct (Z.eqb_spec (tr_ret t) (-1)) as [Hstop|Hgo].
      * injection Hrun as _ <- <-.
        exists [r]. rewrite filter_cons_True by lia.
        destruct Hs2 as [Hs2|Hs2].
        -- exists 0%nat. split; [reflexivity|]. split; [exact Hs2|].
           split; [simpl; lia|].
           destruct Ho2 as [Ho2|(Ho2 & _ & Hnz & Herr)]; [left; exact Ho2|].
           right. split; [exact Ho2|]. exists [], r.
           split; [reflexivity|]. split; [lia|exact Herr].
        -- exists 1%nat. split; [reflexivity|]. split; [exact Hs2|].
           split; [simpl; lia|].
           destruct Ho2 as [Ho2|(Ho2 & _ & Hnz & Herr)]; [left; exact Ho2|].
           right. split; [exact Ho2|]. exists [], r.
           split; [reflexivity|]. split; [lia|exact Herr].
      * destruct Ho2 as [Ho2|(_ & Hret & _)]; [|contradiction].
        apply IH in Hrun as (taken & n & -> & Hs & Hn & Ho);
          [|intros H; discriminate H].
        exists (r :: taken). rewrite filter_cons_True by lia.
        assert (Hout : stdout w' = stdout w
                       \/ (stdout w'
                           = "(error) Error in read function!"%string
                             :: stdout w
                           /\ exists before last,
                                r :: taken = before ++ [last]
                                /\ abnormal last)).
        { destruct Ho as [Ho|(Ho & before & last & -> & Hab)].
          - left. congruence.
          - right. split; [congruence|].
            exists (r :: before), last. split; [reflexivity|exact Hab]. }
        destruct Hs2 as [Hs2|Hs2].
        -- exists n. split; [reflexivity|]. split; [congruence|].
           split; [simpl; lia|exact Hout].
        -- exists (S n). split; [reflexivity|].
           split; [rewrite Hs, Hs2, replicate_S_end, <- app_assoc; reflexivity|].
           split; [simpl; lia|exact Hout].
    + cbn [negb] in Hrun. rewrite (Hfresh eq_refl) in Hrun.
      unfold wait_for_first_message in Hrun.
      change (int_wrap (0 + 1) =? MAX_RETRIES_TO_START_READING) with false
        in Hrun.
      cbv iota zeta beta in Hrun.
      change (negb (0 =? -1)) with true in Hrun. cbv iota in Hrun.
      injection Hrun as _ <- <-.
      exists [r], 1%nat. rewrite filter_cons_True by lia.
      split; [reflexivity|]. split; [reflexivity|].
      split; [simpl; lia|left; reflexivity].
Qed.

Lemma shrink_and_terminate_world
    (body : option block) (total_bytes : Z) (w w' : world) (b : block) :
  shrink_and_terminate body total_bytes w = Done b w' ->
  slept w' = slept w /\ stdout w' = stdout w.
Proof.
  unfold shrink_and_terminate. intros Hrun.
  destruct (realloc body _ w) as [reallocated w1] eqn:Hre.
  destruct (store _ _ _); [discriminate Hrun|].
  injection Hrun as _ <-.
  unfold realloc, malloc in Hre.
  destruct body; destruct (alloc_ok w (alloc_calls w));
    injection Hre as _ <-; split; reflexivity.
Qed.

Lemma read_data_from_ssl_costs
    (ssl rest : list ssl_read_result) (ec : bool) (w w' : world)
    (m : message) :
  read_data_from_ssl ssl ec w = Done (m, rest) w' ->
  exists taken n,
    ssl = taken ++ rest
    /\ slept w' = replicate n (0, 10000000) ++ slept w
    /\ (n <= length (filter (fun r => (rr_ret r <= 0)%Z) taken))%nat
    /\ (stdout w' = stdout w
        \/ (stdout w' = "(error) Error in read function!"%string :: stdout w
            /\ exists before last,
                 taken = before ++ [last] /\ abnormal last)).
Proof.
  unfold read_data_from_ssl. intros Hrun.
  destruct (malloc FULL_BUFFER_SIZE w) as [body w0] eqn:Hmalloc.
  assert (Hw0 : slept w0 = slept w /\ stdout w0 = stdout w).
  { unfold malloc in Hmalloc.
    destruct (alloc_ok w (alloc_calls w)); injection Hmalloc as _ <-;
      split; reflexivity. }
  destruct (read_loop ssl _ w0) as [[s ssl'] w1| |] eqn:Hloop;
    try discriminate Hrun.
  destruct (shrink_and_terminate _ _ w1) as [b w2| |] eqn:Hshrink;
    try discriminate Hrun.
  injection Hrun as _ <- <-.
  apply shrink_and_terminate_world in Hshrink as (Hs2 & Ho2).
  apply read_loop_costs in Hloop as (taken & n & -> & Hs & Hn & Ho);
    [|reflexivity].
  destruct Hw0 as (Hs0 & Ho0).
  exists taken, n. split; [reflexivity|]. split; [congruence|].
  split; [exact Hn|].
  destruct Ho as [Ho|(Ho & Hlast)]; [left|right; split; [|exact Hlast]];
    congruence.
Qed.

(** X11 ([read_data_from_ssl], the time spent asleep). A call that
    returns has slept 10 ms at a time, and at most once for each failed
    read it took from the channel: reads that deliver bytes cost no
    sleep. *)
Theorem read_data_from_ssl_sleeps_per_failure
    (ssl rest : list ssl_read_result) (ec : bool) (w w' : world)
    (m : message) :
  read_data_from_ssl ssl ec w = Done (m, rest) w' ->
  exists taken n,
    ssl = taken ++ rest
    /\ slept w' = replicate n (0, 10000000) ++ slept w
    /\ (n <= length (filter (fun r => (rr_ret r <= 0)%Z) taken))%nat.
Proof.
  intros Hrun.
  destruct (read_data_from_ssl_costs ssl rest ec w w' m Hrun)
    as (taken & n & Hssl & Hs & Hn & _).
  exists taken, n. repeat split; assumption.
Qed.

(** The peer closes before sending anything: one sleep for one failed
    read, and the bytes that would follow stay in the channel. *)
Lemma read_data_from_ssl_sleeps_per_failure_witness :
  exists taken n,
    [ReadResult 0 [] SSL_ERROR_ZERO_RETURN;
     ReadResult 3 ["a"; "b"; "c"]%byte SSL_ERROR_NONE]
    = taken ++ [ReadResult 3 ["a"; "b"; "c"]%byte SSL_ERROR_NONE]
    /\ [(0, 10000000)] = replicate n (0, 10000000) ++ []
    /\ (n <= length (filter (fun r => (rr_ret r <= 0)%Z) taken))%nat.
Proof.
  apply (read_data_from_ssl_sleeps_per_failure
           [ReadResult 0 [] SSL_ERROR_ZERO_RETURN;
            ReadResult 3 ["a"; "b"; "c"]%byte SSL_ERROR_NONE]
           [ReadResult 3 ["a"; "b"; "c"]%byte SSL_ERROR_NONE]
           false (World (fun _ => true) 0 [] [])
           (World (fun _ => true) 2 [(0, 10000000)] [])
           (Message [Some x00] 0 false)).
  vm_compute. reflexivity.
Defined.



(** ** A message closed by the peer *)

(** X13 ([read_data_from_ssl], a message ended by a read of 0 bytes).
    Reads that deliver chunks [c1 ... cn] (n at least 1, each of 1 to
    160 bytes) followed by a read of 0 bytes: the call returns the bytes
    [c1 ++ ... ++ cn] closed by a zero byte, [*total_bytes] is their
    number, [*end_connection] is what the caller put there, and what
    follows in the channel is left unread. *)
Theorem read_data_from_ssl_concatenates_until_close
    (reads : list ssl_read_result) (r : ssl_read_result)
    (rest : list ssl_read_result) (ec : bool) (w : world) :
  reads <> [] ->
  Forall delivers reads ->
  Z.of_nat (length (concat (rr_data <$> reads))) + READER_BUFFER_SIZE
    <= 2 ^ 30 ->
  rr_ret r = 0 ->
  (forall i, alloc_ok w i = true) ->
  exists w',
    read_data_from_ssl (reads ++ r :: rest) ec w
    = Done (Message ((Some <$> concat (rr_data <$> reads)) ++ [Some x00])
              (Z.of_nat (length (concat (rr_data <$> reads)))) ec, rest) w'.
Proof. apply read_data_from_ssl_message. Qed.

(** 100 bytes, then 60 bytes, then the peer closes. *)
Lemma read_data_from_ssl_concatenates_until_close_witness :
  exists w',
    read_data_from_ssl
      ([ReadResult 100 (replicate 100 "a"%byte) SSL_ERROR_NONE;
        ReadResult 60 (replicate 60 "b"%byte) SSL_ERROR_NONE]
       ++ ReadResult 0 [] SSL_ERROR_ZERO_RETURN :: [])
      false (World (fun _ => true) 0 [] [])
    = Done (Message
              ((Some <$> replicate 100 "a"%byte ++ replicate 60 "b"%byte)
               ++ [Some x00]) 160 false, []) w'.
Proof.
  apply (read_data_from_ssl_concatenates_until_close
           [ReadResult 100 (replicate 100 "a"%byte) SSL_ERROR_NONE;
            ReadResult 60 (replicate 60 "b"%byte) SSL_ERROR_NONE]
           (ReadResult 0 [] SSL_ERROR_ZERO_RETURN) [] false
           (World (fun _ => true) 0 [] [])).
  - discriminate.
  - repeat constructor; vm_compute; intros H; discriminate H.
  - vm_compute. intros H; discriminate H.
  - reflexivity.
  - reflexivity.
Defined.
